(** * Airline analytics dashboard: the client-side pipeline of [frontend/app.js]

    A shallow embedding of the JavaScript of [frontend/app.js]: sample data
    generation, aggregation, ranking, CSV export and the two remote loads,
    followed by the properties its specification states about them. *)

From Stdlib Require Import ZArith QArith Qround Lia.
From Stdlib Require Import Reals Qreals Lra Lqa.
From Stdlib Require Import Ascii DecimalString.
From stdpp Require Import base option list strings gmap sorting.

Local Open Scope string_scope.
Local Open Scope Z_scope.
Local Open Scope list_scope.

(** ** JavaScript values

    The values that flow through the modelled code: [undefined], strings,
    integer numbers and [NaN] (every number the code stores in a flight
    record is an integer; fractional numbers appear only inside arithmetic
    and are treated where they occur). *)

Inductive JsVal : Type :=
  | JUndef
  | JStr (s : string)
  | JNum (n : Z)
  | JNaN.

#[global] Instance JsVal_eq_dec : EqDecision JsVal.
Proof. solve_decision. Defined.

(** Number::toString for integers. *)
Definition num_to_string (n : Z) : string :=
  NilZero.string_of_int (Z.to_int n).

(** ToString. *)
Definition ToString (v : JsVal) : string :=
  match v with
  | JUndef => "undefined"
  | JStr s => s
  | JNum n => num_to_string n
  | JNaN => "NaN"
  end.

(** ToBoolean: [undefined], [""], [0] and [NaN] are falsy. *)
Definition truthy (v : JsVal) : bool :=
  match v with
  | JUndef => false
  | JStr s => negb (String.eqb s "")
  | JNum n => negb (Z.eqb n 0)
  | JNaN => false
  end.

(** [a + b]: concatenation as soon as one operand is a string, addition of
    numbers otherwise ([undefined] converts to [NaN]). *)
Definition js_add (a b : JsVal) : JsVal :=
  match a, b with
  | JStr _, _ | _, JStr _ => JStr (ToString a +:+ ToString b)
  | JNum x, JNum y => JNum (x + y)
  | _, _ => JNaN
  end.

(** [a || b] on two numbers. *)
Definition num_or (a b : Z) : Z := if Z.eqb a 0 then b else a.

(** An object literal or a parsed JSON object: its own properties. Reading a
    property that is absent yields [undefined]. *)
Abbreviation JsObj := (gmap string JsVal).

Definition prop (o : JsObj) (k : string) : JsVal := default JUndef (o !! k).

(** [Array.prototype.join]: [undefined] elements are rendered as the empty
    string, every other element by ToString. *)
Definition join_elem (v : JsVal) : string :=
  match v with
  | JUndef => ""
  | _ => ToString v
  end.

Fixpoint join (sep : string) (l : list string) : string :=
  match l with
  | [] => ""
  | [x] => x
  | x :: r => x +:+ sep +:+ join sep r
  end.

Definition LF : string := String (Ascii.ascii_of_nat 10) EmptyString.

(** ** CSV export: [convertToCSV] *)

Definition csv_headers : list string :=
  ["Flight Number"; "Airline"; "Route"; "Departure"; "Arrival"; "Price"; "Status"].

Definition csv_row (flight : JsObj) : string :=
  join "," (join_elem <$>
    [ prop flight "flight_number";
      prop flight "airline";
      prop flight "route";
      prop flight "departure_time";
      prop flight "arrival_time";
      prop flight "price";
      prop flight "status" ]).

Definition convertToCSV (data : list JsObj) : string :=
  join LF (join "," csv_headers :: (csv_row <$> data)).

(** ** String helpers used by the generator *)

(** [s.split(' ')[0]]: the part of [s] before its first space. *)
Fixpoint first_word (s : string) : string :=
  match s with
  | EmptyString => EmptyString
  | String c r => if Ascii.eqb c " "%char then EmptyString else String c (first_word r)
  end.

(** [s.substring(0, n)]. *)
Fixpoint substring0 (n : nat) (s : string) : string :=
  match n, s with
  | S n', String c r => String c (substring0 n' r)
  | _, _ => EmptyString
  end.

Definition upper_char (c : Ascii.ascii) : Ascii.ascii :=
  let n := Ascii.nat_of_ascii c in
  if (97 <=? n)%nat && (n <=? 122)%nat then Ascii.ascii_of_nat (n - 32) else c.

(** [s.toUpperCase()] on ASCII text. *)
Fixpoint toUpperCase (s : string) : string :=
  match s with
  | EmptyString => EmptyString
  | String c r => String (upper_char c) (toUpperCase r)
  end.

(** [s.padStart(2, '0')]. *)
Definition padStart2 (s : string) : string :=
  match String.length s with
  | O => "00"
  | S O => "0" +:+ s
  | _ => s
  end.

(** [a[i]] on an array of strings: [undefined] outside the array. *)
Definition at_index (a : list string) (i : Z) : JsVal :=
  if Z.ltb i 0 then JUndef
  else match a !! Z.to_nat i with
       | Some s => JStr s
       | None => JUndef
       end.

(** ** Numeric strings *)

Definition digit_of (c : Ascii.ascii) : option Z :=
  let n := Ascii.nat_of_ascii c in
  if (48 <=? n)%nat && (n <=? 57)%nat then Some (Z.of_nat (n - 48)) else None.

(** The value of [s] when it consists of decimal digits only. *)
Fixpoint all_digits (acc : Z) (s : string) : option Z :=
  match s with
  | EmptyString => Some acc
  | String c r =>
      match digit_of c with
      | Some d => all_digits (10 * acc + d) r
      | None => None
      end
  end.

(** The value of the longest prefix of decimal digits of [s]; [None] when
    [s] does not start with a digit. *)
Fixpoint leading_digits (acc : option Z) (s : string) : option Z :=
  match s with
  | EmptyString => acc
  | String c r =>
      match digit_of c with
      | Some d => leading_digits (Some (10 * default 0 acc + d)) r
      | None => acc
      end
  end.

(** [parseInt(s)] for a string without leading blanks or radix prefix (the
    values of the limit select are such): an optional sign and the leading
    decimal digits; [None] is [NaN]. *)
Definition parseInt (s : string) : option Z :=
  match s with
  | String "-" r => Z.opp <$> leading_digits None r
  | String "+" r => leading_digits None r
  | _ => leading_digits None s
  end.

(** [a.slice(0, e)] where [e] is a number or [NaN]: [NaN] counts as 0 and
    a negative end counts from the end of the array. *)
Definition slice0 {A} (a : list A) (e : option Z) : list A :=
  match e with
  | None => []
  | Some n =>
      if Z.ltb n 0 then take (Z.to_nat (Z.of_nat (length a) + n)) a
      else take (Z.to_nat n) a
  end.

(** ** Objects used as dictionaries

    [routeData], [airlineData] and [routeStats] are plain objects keyed by
    strings. A dictionary lists the own properties in the order of their
    creation; assigning to an existing key keeps its place. Keys are taken
    not to name a member of [Object.prototype]. *)

Abbreviation Dict V := (list (string * V)).

Fixpoint dict_get {V} (d : Dict V) (k : string) : option V :=
  match d with
  | [] => None
  | (k', v) :: r => if String.eqb k' k then Some v else dict_get r k
  end.

Fixpoint dict_set {V} (d : Dict V) (k : string) (v : V) : Dict V :=
  match d with
  | [] => [(k, v)]
  | (k', v') :: r => if String.eqb k' k then (k', v) :: r else (k', v') :: dict_set r k v
  end.

(** A property key is an array index when it is the canonical decimal
    spelling of an integer between 0 and 2^32 - 2. *)
Definition array_index (k : string) : option Z :=
  match k with
  | EmptyString => None
  | _ =>
      match all_digits 0 k with
      | Some n =>
          if String.eqb (num_to_string n) k && Z.leb n 4294967294 then Some n else None
      | None => None
      end
  end.

(** [a.sort(cmp)]: the sort is stable, so each element is placed before the
    first later element that it does not have to follow. *)
Fixpoint sort_insert {A} (cmp : A -> A -> Z) (x : A) (l : list A) : list A :=
  match l with
  | [] => [x]
  | y :: r => if Z.ltb 0 (cmp x y) then y :: sort_insert cmp x r else x :: y :: r
  end.

Definition js_sort {A} (cmp : A -> A -> Z) (l : list A) : list A :=
  foldr (sort_insert cmp) [] l.

(** The own properties whose key is an array index, with the index. *)
Definition indexed {V} (d : Dict V) : list (Z * (string * V)) :=
  omap (fun e => (fun i => (i, e)) <$> array_index (fst e)) d.

(** [Object.entries(d)]: the properties whose key is an array index come
    first, in ascending numeric order; the others follow in the order of
    their creation. *)
Definition entries {V} (d : Dict V) : list (string * V) :=
  (snd <$> js_sort (fun a b => fst a - fst b) (indexed d))
  ++ filter (fun e => array_index (fst e) = None) d.

(** ToPropertyKey of a flight's field. *)
Definition key_of (field : string) (flight : JsObj) : string :=
  ToString (prop flight field).

(** [forEach(flight => { d[flight.f] = (d[flight.f] || 0) + 1 })]. *)
Definition count_step (field : string) (d : Dict Z) (flight : JsObj) : Dict Z :=
  let k := key_of field flight in
  dict_set d k (num_or (default 0 (dict_get d k)) 0 + 1).

Definition count_by (field : string) (flights : list JsObj) : Dict Z :=
  foldl (count_step field) [] flights.

(** [Object.entries(d).sort(([,a], [,b]) => b - a).slice(0, n)]. *)
Definition top_counts (n : nat) (d : Dict Z) : list (string * Z) :=
  take n (js_sort (fun a b => snd b - snd a) (entries d)).

(** The per-route statistics of the top-routes panel. *)
Record RouteStat : Type := mkRouteStat {
  rs_count : Z;
  rs_totalPrice : JsVal;
  rs_flights : list JsObj
}.

Definition stats_step (d : Dict RouteStat) (flight : JsObj) : Dict RouteStat :=
  let k := key_of "route" flight in
  let d1 := match dict_get d k with
            | Some _ => d
            | None => dict_set d k (mkRouteStat 0 (JNum 0) [])
            end in
  match dict_get d1 k with
  | Some st =>
      dict_set d1 k
        (mkRouteStat (rs_count st + 1)
                     (js_add (rs_totalPrice st) (prop flight "price"))
                     (rs_flights st ++ [flight]))
  | None => d1
  end.

Definition route_stats (flights : list JsObj) : Dict RouteStat :=
  foldl stats_step [] flights.

(** [Object.entries(routeStats).sort(([,a], [,b]) => b.count - a.count).slice(0, 5)]. *)
Definition top_stats (n : nat) (d : Dict RouteStat) : list (string * RouteStat) :=
  take n (js_sort (fun a b => rs_count (snd b) - rs_count (snd a)) (entries d)).

(** ** The dashboard: what the page shows and holds *)

(** The four statistic cards. *)
Record Stats : Type := {
  stat_totalFlights : Z;
  stat_uniqueRoutes : Z;
  stat_airlines : Z;
  stat_airports : Z
}.

(** The global [dashboardStats]; it is never assigned to. *)
Definition dashboardStats : Stats :=
  {| stat_totalFlights := 300; stat_uniqueRoutes := 10;
     stat_airlines := 10; stat_airports := 10 |}.

(** The labels and the first dataset of a chart. *)
Record Chart : Type := { labels : list string; data : list Z }.

(** A row of the flight table: the texts interpolated into its cells. *)
Record TableRow : Type := {
  row_flight_number : string;
  row_route : string;
  row_airline : string;
  row_departure_time : string;
  row_arrival_time : string;
  row_price : string;
  row_badge : string;
  row_status : string
}.

(** The table body: the placeholder row, or one row per displayed flight. *)
Inductive TableView : Type :=
  | NoData
  | Rows (rows : list TableRow).

(** An entry of the top-routes panel. A placeholder shows a route, a number
    of flights, a remark and a percentage. A ranked entry shows the route,
    [count], [Math.round(totalPrice / count)] and
    [Math.round(count / outOf * 100)]: it records the numbers these texts
    are computed from, the floating-point quotients are not evaluated. *)
Inductive RouteItem : Type :=
  | PlaceholderItem (route : string) (count : Z) (remark : string) (percent : Z)
  | RankedItem (route : string) (count : Z) (totalPrice : JsVal) (outOf : Z).

(** What the page does to its user and to the console. *)
Inductive Effect : Type :=
  | Alert (message : string)
  | Download (filename content : string)
  | ConsoleError (message : string).

Record Dashboard : Type := mkDashboard {
  input_fromAirport : string;
  input_toAirport : string;
  input_dataLimit : string;
  currentFlightData : list JsObj;
  statCards : Stats;
  routeChart : Chart;
  airlineChart : Chart;
  priceChart : Chart;
  flightTable : TableView;
  topRoutes : list RouteItem;
  loadingOverlay : bool;
  effects : list Effect
}.

Definition set_inputs (st : Dashboard) (f t l : string) : Dashboard :=
  mkDashboard f t l (currentFlightData st) (statCards st) (routeChart st)
    (airlineChart st) (priceChart st) (flightTable st) (topRoutes st)
    (loadingOverlay st) (effects st).

Definition set_currentFlightData (st : Dashboard) (flights : list JsObj) : Dashboard :=
  mkDashboard (input_fromAirport st) (input_toAirport st) (input_dataLimit st)
    flights (statCards st) (routeChart st) (airlineChart st) (priceChart st)
    (flightTable st) (topRoutes st) (loadingOverlay st) (effects st).

Definition set_statCards (st : Dashboard) (s : Stats) : Dashboard :=
  mkDashboard (input_fromAirport st) (input_toAirport st) (input_dataLimit st)
    (currentFlightData st) s (routeChart st) (airlineChart st) (priceChart st)
    (flightTable st) (topRoutes st) (loadingOverlay st) (effects st).

Definition set_charts (st : Dashboard) (routes airlines prices : Chart) : Dashboard :=
  mkDashboard (input_fromAirport st) (input_toAirport st) (input_dataLimit st)
    (currentFlightData st) (statCards st) routes airlines prices
    (flightTable st) (topRoutes st) (loadingOverlay st) (effects st).

Definition set_flightTable (st : Dashboard) (t : TableView) : Dashboard :=
  mkDashboard (input_fromAirport st) (input_toAirport st) (input_dataLimit st)
    (currentFlightData st) (statCards st) (routeChart st) (airlineChart st)
    (priceChart st) t (topRoutes st) (loadingOverlay st) (effects st).

Definition set_topRoutes (st : Dashboard) (r : list RouteItem) : Dashboard :=
  mkDashboard (input_fromAirport st) (input_toAirport st) (input_dataLimit st)
    (currentFlightData st) (statCards st) (routeChart st) (airlineChart st)
    (priceChart st) (flightTable st) r (loadingOverlay st) (effects st).

Definition set_loadingOverlay (st : Dashboard) (b : bool) : Dashboard :=
  mkDashboard (input_fromAirport st) (input_toAirport st) (input_dataLimit st)
    (currentFlightData st) (statCards st) (routeChart st) (airlineChart st)
    (priceChart st) (flightTable st) (topRoutes st) b (effects st).

Definition log (st : Dashboard) (e : Effect) : Dashboard :=
  mkDashboard (input_fromAirport st) (input_toAirport st) (input_dataLimit st)
    (currentFlightData st) (statCards st) (routeChart st) (airlineChart st)
    (priceChart st) (flightTable st) (topRoutes st) (loadingOverlay st)
    (effects st ++ [e]).

(** ** The remote search endpoint

    What [await fetch(...)] and [await response.json()] can yield: the
    request is rejected (the endpoint is unreachable), or a response
    arrives with its [ok] flag; reading the body either throws (it is not
    JSON, or holds no object) or gives an object whose [flights] property
    is an array of flight objects or is absent. *)

Inductive Body : Type :=
  | BodyRejects
  | BodyData (flights : option (list JsObj)).

Inductive FetchResult : Type :=
  | FetchRejects
  | FetchResponse (ok : bool) (body : Body).

(** The body of the search request of [loadInitialData]. *)
Definition initial_request (todayISO : string) : JsObj :=
  list_to_map [("origin", JStr "JFK"); ("destination", JStr "LAX"); ("date", JStr todayISO)].

(** The object literal pushed by the generator, by the values of its
    eleven properties. *)
Definition flight_literal
    (flight_number airline origin destination route departure_time arrival_time
     price duration status date : JsVal) : JsObj :=
  list_to_map
    [ ("flight_number", flight_number);
      ("airline", airline);
      ("origin", origin);
      ("destination", destination);
      ("route", route);
      ("departure_time", departure_time);
      ("arrival_time", arrival_time);
      ("price", price);
      ("duration", duration);
      ("status", status);
      ("date", date) ].

(** ** The random source and the computations that use it

    [Math.random()] is an oracle: [rnd k] is the number returned by the k-th
    call since the page was loaded. Numbers are taken exactly (as
    rationals), not as doubles. A computation threads the number of calls
    made so far and may throw (a [TypeError]): [None] is a thrown
    exception, and the calls made before it stay counted. *)

Definition M (A : Type) : Type := nat -> option A * nat.

Definition ret {A} (a : A) : M A := fun c => (Some a, c).

Definition throw {A} : M A := fun c => (None, c).

Definition bind {A B} (m : M A) (k : A -> M B) : M B :=
  fun c => match m c with
           | (Some a, c') => k a c'
           | (None, c') => (None, c')
           end.

Notation "x <- m ;; k" := (bind m (fun x => k))
  (at level 100, m at next level, right associativity).

(** [try { body } catch { handler }]. *)
Definition try_catch {A} (body handler : M A) : M A :=
  fun c => match body c with
           | (Some a, c') => (Some a, c')
           | (None, c') => handler c'
           end.

Section Environment.

(** The k-th result of [Math.random()]. *)
Variable rnd : nat -> Q.

(** [new Date().toISOString().split('T')[0]]. *)
Variable todayISO : string.

(** The 'en-US' short month and day of the date [i] days before today. *)
Variable dayLabel : nat -> string.

Definition Math_random : M Q := fun c => (Some (rnd c), S c).

(** ** Sample data: [generateSampleData] *)

Definition airlines : list string :=
  ["American Airlines"; "Delta Air Lines"; "United Airlines"; "Southwest Airlines";
   "JetBlue Airways"; "Alaska Airlines"; "Spirit Airlines"; "Frontier Airlines"].

Definition airports : list string :=
  ["JFK"; "LAX"; "ORD"; "DFW"; "DEN"; "SFO"; "LAS"; "MIA";
   "BOS"; "SEA"; "ATL"; "PHX"; "LGA"; "EWR"; "IAD"; "DCA"].

Definition statuses : list string := ["On Time"; "Delayed"; "Boarding"; "Departed"].

(** [Math.floor(Math.random() * n)]. *)
Definition random_below (n : Z) : M Z :=
  r <- Math_random ;; ret (Qfloor (r * inject_Z n)).

(** [airports.filter(a => a !== fromAirport)]. *)
Definition airports_except (fromAirport : JsVal) : list string :=
  filter (fun a => JStr a <> fromAirport) airports.

(** [hh.toString().padStart(2,'0') : mm.toString().padStart(2,'0')]. *)
Definition clock (hh mm : Z) : string :=
  padStart2 (num_to_string hh) +:+ ":" +:+ padStart2 (num_to_string mm).

(** One iteration of the loop: the record pushed onto [flights]. *)
Definition sampleFlight (origin destination : string) : M JsObj :=
  fromAirport <-
    (if truthy (JStr origin) then ret (JStr origin)
     else i <- random_below (Z.of_nat (length airports)) ;; ret (at_index airports i)) ;;
  toAirport <-
    (if truthy (JStr destination) then ret (JStr destination)
     else i <- random_below (Z.of_nat (length airports) - 1) ;;
          ret (at_index (airports_except fromAirport) i)) ;;
  ai <- random_below (Z.of_nat (length airlines)) ;;
  let airline := at_index airlines ai in
  p <- random_below 800 ;;
  let price := p + 200 in
  code <- match airline with
          | JStr a => ret (toUpperCase (substring0 2 (first_word a)))
          | _ => throw
          end ;;
  r <- Math_random ;;
  let flightNumber := code +:+ num_to_string (Qfloor (r * 9000 + 1000)) in
  departureHour <- random_below 24 ;;
  departureMinute <- random_below 60 ;;
  d <- random_below 6 ;;
  let flightDuration := d + 1 in
  let arrivalHour := (departureHour + flightDuration) mod 24 in
  m <- random_below 60 ;;
  let arrivalMinute := (departureMinute + m) mod 60 in
  dm <- random_below 60 ;;
  si <- random_below (Z.of_nat (length statuses)) ;;
  ret (flight_literal
         (JStr flightNumber) airline fromAirport toAirport
         (JStr (ToString fromAirport +:+ "-" +:+ ToString toAirport))
         (JStr (clock departureHour departureMinute))
         (JStr (clock arrivalHour arrivalMinute))
         (JNum price)
         (JStr (num_to_string flightDuration +:+ "h " +:+ num_to_string dm +:+ "m"))
         (at_index statuses si)
         (JStr todayISO)).

(** The [for] loop, by the number of iterations left. *)
Fixpoint sampleLoop (n : nat) (origin destination : string) : M (list JsObj) :=
  match n with
  | O => ret []
  | S n' =>
      f <- sampleFlight origin destination ;;
      fs <- sampleLoop n' origin destination ;;
      ret (f :: fs)
  end.

(** [generateSampleData(limit, origin, destination)]: the loop runs while
    [i < limit], that is [limit] times (never for a negative limit). *)
Definition generateSampleData (limit : Z) (origin destination : string) : M (list JsObj) :=
  sampleLoop (Z.to_nat limit) origin destination.

(** ** The price trend: [generatePriceTrend]

    Doubles are idealised as real numbers. *)

(** [Math.round(x)]: the integer part of [x + 0.5]. *)
Definition Math_round (x : R) : Z := Int_part (x + / 2).

Definition basePrice : R := 450.

(** The value pushed for day offset [i] when [Math.random()] returns [r]. *)
Definition trendPrice (i : nat) (r : Q) : Z :=
  let variation := ((Q2R r - 5 / 10) * 100)%R in
  let seasonalEffect := (sin (INR i * (1 / 10)) * 50)%R in
  let price := Rmax 200 (basePrice + variation + seasonalEffect) in
  Math_round price.

(** The loop [for (i = 30; i >= 0; i--)], by the number of iterations
    left: with [S i] left the day offset is [i]. *)
Fixpoint trendLoop (n : nat) : M (list string * list Z) :=
  match n with
  | O => ret ([], [])
  | S i =>
      r <- Math_random ;;
      rest <- trendLoop i ;;
      ret (dayLabel i :: fst rest, trendPrice i r :: snd rest)
  end.

Definition generatePriceTrend : M Chart :=
  series <- trendLoop 31 ;;
  ret {| labels := fst series; data := snd series |}.

(** ** Rendering *)

Definition updateStatistics (st : Dashboard) : Dashboard :=
  let flights := currentFlightData st in
  let totalFlights :=
    num_or (Z.of_nat (length flights)) (stat_totalFlights dashboardStats) in
  let uniqueRoutes :=
    num_or (Z.of_nat (length (remove_dups ((fun f => prop f "route") <$> flights))))
           (stat_uniqueRoutes dashboardStats) in
  let airlines :=
    num_or (Z.of_nat (length (remove_dups ((fun f => prop f "airline") <$> flights))))
           (stat_airlines dashboardStats) in
  let airports :=
    num_or (Z.of_nat (length (remove_dups
              (flights ≫= (fun f => [prop f "origin"; prop f "destination"])))))
           (stat_airports dashboardStats) in
  set_statCards st
    {| stat_totalFlights := totalFlights; stat_uniqueRoutes := uniqueRoutes;
       stat_airlines := airlines; stat_airports := airports |}.

Definition updateChartsWithSampleData (st : Dashboard) : M Dashboard :=
  let sampleRoutes :=
    ["JFK-LAX"; "ORD-LAS"; "DFW-DEN"; "BOS-SFO"; "MIA-LGA"; "ATL-PHX"; "SEA-IAD"; "EWR-DCA"] in
  let sampleRouteCounts := [45; 38; 32; 28; 25; 22; 18; 15] in
  let sampleAirlines :=
    ["American Airlines"; "Delta Air Lines"; "United Airlines"; "Southwest Airlines";
     "JetBlue Airways"; "Alaska Airlines"] in
  let sampleAirlineCounts := [28; 25; 22; 15; 12; 8] in
  priceData <- generatePriceTrend ;;
  ret (set_charts st
         {| labels := sampleRoutes; data := sampleRouteCounts |}
         {| labels := sampleAirlines; data := sampleAirlineCounts |}
         priceData).

Definition updateCharts (st : Dashboard) : M Dashboard :=
  let flights := currentFlightData st in
  if Nat.eqb (length flights) 0 then updateChartsWithSampleData st
  else
    let topRoutes := top_counts 8 (count_by "route" flights) in
    let topAirlines := top_counts 8 (count_by "airline" flights) in
    priceData <- generatePriceTrend ;;
    ret (set_charts st
           {| labels := fst <$> topRoutes; data := snd <$> topRoutes |}
           {| labels := fst <$> topAirlines; data := snd <$> topAirlines |}
           priceData).

Definition getStatusBadgeClass (status : JsVal) : string :=
  match status with
  | JStr "On Time" => "badge-success"
  | JStr "Delayed" => "badge-warning"
  | JStr "Boarding" => "badge-info"
  | JStr "Departed" => "badge-info"
  | _ => "badge-secondary"
  end.

Definition table_row (flight : JsObj) : TableRow :=
  {| row_flight_number := ToString (prop flight "flight_number");
     row_route := ToString (prop flight "route");
     row_airline := ToString (prop flight "airline");
     row_departure_time := ToString (prop flight "departure_time");
     row_arrival_time := ToString (prop flight "arrival_time");
     row_price := ToString (prop flight "price");
     row_badge := getStatusBadgeClass (prop flight "status");
     row_status := ToString (prop flight "status") |}.

Definition updateFlightTable (st : Dashboard) : Dashboard :=
  let displayData := slice0 (currentFlightData st) (Some 20) in
  if Nat.eqb (length displayData) 0 then set_flightTable st NoData
  else set_flightTable st (Rows (table_row <$> displayData)).

Definition updateTopRoutes (st : Dashboard) : Dashboard :=
  let flights := currentFlightData st in
  if Nat.eqb (length flights) 0 then
    set_topRoutes st
      [ PlaceholderItem "JFK-LAX" 45 "Popular" 85;
        PlaceholderItem "ORD-LAS" 38 "High demand" 78;
        PlaceholderItem "DFW-DEN" 32 "Moderate" 72 ]
  else
    let topRoutes := top_stats 5 (route_stats flights) in
    set_topRoutes st
      ((fun e => RankedItem (fst e) (rs_count (snd e)) (rs_totalPrice (snd e))
                            (Z.of_nat (length flights))) <$> topRoutes).

Definition updateDashboard (st : Dashboard) : M Dashboard :=
  st <- updateCharts (updateStatistics st) ;;
  ret (updateTopRoutes (updateFlightTable st)).

(** ** Loading *)

Definition showLoading (st : Dashboard) : Dashboard := set_loadingOverlay st true.
Definition hideLoading (st : Dashboard) : Dashboard := set_loadingOverlay st false.

Definition loadSampleData (st : Dashboard) : M Dashboard :=
  flights <- generateSampleData 50 "" "" ;;
  updateDashboard (set_currentFlightData st flights).

(** [generateSampleData(parseInt(dataLimit), ...)]: with [NaN] the loop
    condition [i < limit] is false at once. *)
Definition generateSampleDataN (limit : option Z) (origin destination : string)
  : M (list JsObj) :=
  match limit with
  | Some n => generateSampleData n origin destination
  | None => ret []
  end.

(** The body of the search request of [loadFilteredData]. *)
Definition searchParams (fromAirport toAirport : string) : JsObj :=
  let p0 : JsObj := ∅ in
  let p1 := if truthy (JStr fromAirport)
            then <["origin" := JStr (toUpperCase fromAirport)]> p0 else p0 in
  if truthy (JStr toAirport)
  then <["destination" := JStr (toUpperCase toAirport)]> p1 else p1.

(** [loadFilteredData], run without interleaving: [net] answers the
    request. No statement of the [try] block throws after it has written
    to the dashboard, so the handler starts from the dashboard as it was
    when the block was entered. *)
Definition loadFilteredData (net : JsObj -> FetchResult) (st : Dashboard) : M Dashboard :=
  let fromAirport := input_fromAirport st in
  let toAirport := input_toAirport st in
  let dataLimit := input_dataLimit st in
  let st := showLoading st in
  try_catch
    (match net (searchParams fromAirport toAirport) with
     | FetchRejects => throw
     | FetchResponse true BodyRejects => throw
     | FetchResponse true (BodyData flights) =>
         let st := set_currentFlightData st
                     (match flights with
                      | Some a => slice0 a (parseInt dataLimit)
                      | None => []
                      end) in
         st <- updateDashboard st ;;
         ret (hideLoading st)
     | FetchResponse false _ =>
         flights <- generateSampleDataN (parseInt dataLimit) fromAirport toAirport ;;
         st <- updateDashboard (set_currentFlightData st flights) ;;
         ret (hideLoading st)
     end)
    (let st := log st (ConsoleError "Error loading data:") in
     flights <- generateSampleDataN (parseInt dataLimit) fromAirport toAirport ;;
     st <- updateDashboard (set_currentFlightData st flights) ;;
     ret (hideLoading st)).

(** [loadInitialData], run without interleaving. *)
Definition loadInitialData (net : JsObj -> FetchResult) (st : Dashboard) : M Dashboard :=
  try_catch
    (match net (initial_request todayISO) with
     | FetchRejects => throw
     | FetchResponse true BodyRejects => throw
     | FetchResponse true (BodyData (Some (f :: fs))) =>
         updateDashboard (set_currentFlightData st (f :: fs))
     | FetchResponse true (BodyData _) => ret st
     | FetchResponse false _ => ret st
     end)
    (ret (log st (ConsoleError "Error loading initial data:"))).

Definition clearFilters (st : Dashboard) : M Dashboard :=
  loadSampleData (set_inputs st "" "" "50").

Definition refreshData (net : JsObj -> FetchResult) (st : Dashboard) : M Dashboard :=
  loadFilteredData net st.

(** ** Export *)

Definition exportData (st : Dashboard) : Dashboard :=
  if Nat.eqb (length (currentFlightData st)) 0 then
    log st (Alert "No data to export. Please load some flight data first.")
  else
    let csvContent := convertToCSV (currentFlightData st) in
    log st (Download "airline_data.csv" csvContent).

End Environment.

(** ** The shape of a generated record

    [generated origin destination today f]: [f] is a record the loop of
    [generateSampleData(_, origin, destination)] can push, with the draws
    it is made from: a carrier, a flight number of four digits, the two
    airports, a price, a departure hour [dh] and minute [dm], a duration of
    [d] hours, the minutes [m] added to the departure minute, the minutes
    [mins] shown in the duration, and a status. *)
Definition generated (origin destination today : string) (f : JsObj) : Prop :=
  exists (airline status : string) (fromA toA : JsVal) (n price dh dm d m mins : Z),
    f = flight_literal
          (JStr (toUpperCase (substring0 2 (first_word airline)) +:+ num_to_string n))
          (JStr airline) fromA toA
          (JStr (ToString fromA +:+ "-" +:+ ToString toA))
          (JStr (clock dh dm))
          (JStr (clock ((dh + d) mod 24) ((dm + m) mod 60)))
          (JNum price)
          (JStr (num_to_string d +:+ "h " +:+ num_to_string mins +:+ "m"))
          (JStr status)
          (JStr today)
    /\ airline ∈ airlines /\ status ∈ statuses
    /\ (if truthy (JStr origin) then fromA = JStr origin
        else exists a, a ∈ airports /\ fromA = JStr a)
    /\ (if truthy (JStr destination) then toA = JStr destination
        else exists b, b ∈ airports /\ toA = JStr b /\ toA <> fromA)
    /\ 1000 <= n < 10000 /\ 200 <= price < 1000
    /\ 0 <= dh < 24 /\ 0 <= dm < 60 /\ 1 <= d <= 6 /\ 0 <= m < 60 /\ 0 <= mins < 60.

(** ** Reading a clock string back

    The hour and the minute of a string of the form HH:MM. *)
Definition parse_clock (s : string) : option (Z * Z) :=
  match s with
  | String h1 (String h2 (String ":" (String m1 (String m2 EmptyString)))) =>
      match digit_of h1, digit_of h2, digit_of m1, digit_of m2 with
      | Some a, Some b, Some c, Some d => Some (10 * a + b, 10 * c + d)
      | _, _, _, _ => None
      end
  | _ => None
  end.

(** ** A concrete environment

    A random source that cycles through 0, 0.7, 0.4, 0.1, 0.8, ..., used to
    run the model on concrete inputs. *)
Definition rnd_cycle : nat -> Q := fun k => (Z.of_nat (k * 7 mod 10) # 10)%Q.

(** ** Comparing dashboards

    [views st]: everything the page derives from the flight collection. *)
Definition views (st : Dashboard)
  : Stats * Chart * Chart * Chart * TableView * list RouteItem :=
  (statCards st, routeChart st, airlineChart st, priceChart st,
   flightTable st, topRoutes st).

(** [same_page st st']: the two dashboards agree on the filter inputs, the
    flight collection, every derived view and the loading overlay; they may
    differ in the effects recorded. *)
Definition same_page (st st' : Dashboard) : Prop :=
  input_fromAirport st' = input_fromAirport st
  /\ input_toAirport st' = input_toAirport st
  /\ input_dataLimit st' = input_dataLimit st
  /\ currentFlightData st' = currentFlightData st
  /\ views st' = views st
  /\ loadingOverlay st' = loadingOverlay st.

Definition is_download (e : Effect) : bool :=
  match e with
  | Download _ _ => true
  | _ => false
  end.

(** ** The page as served

    The dashboard before any script has run: empty filter inputs, the first
    option of the limit select, the numbers written in the markup of the
    four cards, empty charts, table body and top-routes panel, and a hidden
    overlay. *)
Definition initialDashboard : Dashboard :=
  {| input_fromAirport := ""; input_toAirport := ""; input_dataLimit := "50";
     currentFlightData := [];
     statCards := {| stat_totalFlights := 300; stat_uniqueRoutes := 10;
                     stat_airlines := 10; stat_airports := 10 |};
     routeChart := {| labels := []; data := [] |};
     airlineChart := {| labels := []; data := [] |};
     priceChart := {| labels := []; data := [] |};
     flightTable := Rows [];
     topRoutes := [];
     loadingOverlay := false;
     effects := [] |}.

(** [render rnd dayLabel flights c]: the views [updateDashboard] derives
    from the collection [flights] when [c] calls of [Math.random()] have
    been made. *)
Definition render (rnd : nat -> Q) (dayLabel : nat -> string)
    (flights : list JsObj) (c : nat)
  : option (Stats * Chart * Chart * Chart * TableView * list RouteItem) :=
  views <$> fst (updateDashboard rnd dayLabel (set_currentFlightData initialDashboard flights) c).

(** A stand-in for the date labels. *)
Definition offset_label (i : nat) : string := "day-" +:+ num_to_string (Z.of_nat i).

(** ** The record of the CSV example

    The record with the property names of the specification, the same
    record with the property names [convertToCSV] reads, and the text the
    specification expects. *)
Definition csv_example_camel : JsObj :=
  list_to_map
    [ ("flightNumber", JStr "AA123"); ("airline", JStr "American Airlines");
      ("route", JStr "JFK-LAX"); ("departureTime", JStr "08:00");
      ("arrivalTime", JStr "11:00"); ("price", JNum 350); ("status", JStr "On Time") ].

Definition csv_example_snake : JsObj :=
  list_to_map
    [ ("flight_number", JStr "AA123"); ("airline", JStr "American Airlines");
      ("route", JStr "JFK-LAX"); ("departure_time", JStr "08:00");
      ("arrival_time", JStr "11:00"); ("price", JNum 350); ("status", JStr "On Time") ].

Definition csv_example_text : string :=
  "Flight Number,Airline,Route,Departure,Arrival,Price,Status" +:+ LF
  +:+ "AA123,American Airlines,JFK-LAX,08:00,11:00,350,On Time".

(** ** Counting distinct values

    [distinct_count l n]: the list [l] holds exactly [n] different values. *)
Definition distinct_count (l : list JsVal) (n : Z) : Prop :=
  exists s, NoDup s /\ (forall x, x ∈ s <-> x ∈ l) /\ n = Z.of_nat (length s).

(** [shown_for computed fallback]: what a card shows for a computed number. *)
Definition shown_for (computed fallback : Z) : Z :=
  if decide (computed = 0) then fallback else computed.

(** ** Endpoints used in the examples

    An endpoint that answers every request with 51 flights, and an endpoint
    that cannot be reached. *)
Definition net_51 : JsObj -> FetchResult :=
  fun _ => FetchResponse true (BodyData (Some (replicate 51 csv_example_snake))).

Definition net_down : JsObj -> FetchResult := fun _ => FetchRejects.

(** ** Order in a list *)

(** [before l x y]: an occurrence of [x] precedes an occurrence of [y]. *)
Definition before {A} (l : list A) (x y : A) : Prop :=
  exists l1 l2 l3, l = l1 ++ x :: l2 ++ y :: l3.

(** ** The order a stable sort produces

    [outranks weight key l x y]: [x] weighs more than [y], or as much and
    its key occurs before the key of [y] among the keys of [l]. *)
Definition outranks {A K} (weight : A -> Z) (key : A -> K) (l : list A) (x y : A) : Prop :=
  weight y < weight x
  \/ (weight x = weight y /\ before (key <$> l) (key x) (key y)).

(** ** Stating the order of a ranking *)

(** The position of the first occurrence of [k] in [l]. *)
Fixpoint first_index (k : string) (l : list string) : option nat :=
  match l with
  | [] => None
  | x :: r => if decide (x = k) then Some 0%nat else S <$> first_index k r
  end.

(** The number of occurrences of [k] in [l]. *)
Definition occurrences (k : string) (l : list string) : Z :=
  Z.of_nat (length (filter (fun x => x = k) l)).

(** How two keys of equal count are ordered: array indices come first, in
    ascending numeric order; the other keys follow in the order in which
    they are first seen in [keys]. *)
Definition tie_break (keys : list string) (k1 k2 : string) : Prop :=
  match array_index k1, array_index k2 with
  | Some a, Some b => a < b
  | Some _, None => True
  | None, Some _ => False
  | None, None =>
      exists p1 p2,
        first_index k1 keys = Some p1 /\ first_index k2 keys = Some p2 /\ (p1 < p2)%nat
  end.

(** [ranked keys ranking]: every entry of [ranking] carries the number of
    occurrences of its key in [keys], the counts never increase along the
    ranking, and entries of equal count stand in the order of [tie_break]. *)
Definition ranked (keys : list string) (ranking : list (string * Z)) : Prop :=
  forall i j k1 c1 k2 c2,
    ranking !! i = Some (k1, c1) -> ranking !! j = Some (k2, c2) ->
    c1 = occurrences k1 keys
    /\ ((i < j)%nat -> c2 <= c1)
    /\ (c1 = c2 -> tie_break keys k1 k2 -> (i < j)%nat).

(** A flight on the route [r]. *)
Definition flight_on (r : string) : JsObj :=
  flight_literal (JStr "AA1234") (JStr "American Airlines") (JStr "JFK") (JStr "LAX")
    (JStr r) (JStr "08:00") (JStr "11:00") (JNum 350) (JStr "3h 0m") (JStr "On Time")
    (JStr "2026-11-01").

(** The order the specification states for keys of equal count: the key
    first seen earlier is ranked earlier, whatever the keys. *)
Definition first_seen_ranked (keys : list string) (ranking : list (string * Z)) : Prop :=
  forall i j k1 k2 c p1 p2,
    ranking !! i = Some (k1, c) -> ranking !! j = Some (k2, c) ->
    first_index k1 keys = Some p1 -> first_index k2 keys = Some p2 ->
    (p1 < p2)%nat -> (i < j)%nat.

(** Two flights whose routes are spelled as numbers. *)
Definition numbered_flights : list JsObj := [flight_on "2"; flight_on "1"].

(** ** Calls of the random source

    The number of calls of [Math.random()] one iteration of the loop of
    [generateSampleData] makes: nine, and one more for each airport that is
    not given. *)
Definition draws_per_record (origin destination : string) : nat :=
  (9 + (if truthy (JStr origin) then 0 else 1)
     + (if truthy (JStr destination) then 0 else 1))%nat.

(** The two-letter codes the generator derives from the carrier names. *)
Definition carrier_codes : list string :=
  (fun a => toUpperCase (substring0 2 (first_word a)))
    <$> ["American Airlines"; "Delta Air Lines"; "United Airlines"; "Southwest Airlines";
         "JetBlue Airways"; "Alaska Airlines"; "Spirit Airlines"; "Frontier Airlines"].

(** ** The sample series and placeholders shown for an empty collection *)
Definition sample_route_chart : Chart :=
  {| labels := ["JFK-LAX"; "ORD-LAS"; "DFW-DEN"; "BOS-SFO"; "MIA-LGA"; "ATL-PHX";
                "SEA-IAD"; "EWR-DCA"];
     data := [45; 38; 32; 28; 25; 22; 18; 15] |}.

Definition sample_airline_chart : Chart :=
  {| labels := ["American Airlines"; "Delta Air Lines"; "United Airlines";
                "Southwest Airlines"; "JetBlue Airways"; "Alaska Airlines"];
     data := [28; 25; 22; 15; 12; 8] |}.

Definition placeholder_routes : list RouteItem :=
  [ PlaceholderItem "JFK-LAX" 45 "Popular" 85;
    PlaceholderItem "ORD-LAS" 38 "High demand" 78;
    PlaceholderItem "DFW-DEN" 32 "Moderate" 72 ].

(** The seven properties the table and the CSV export both read. *)
Definition shown_properties : list string :=
  ["flight_number"; "airline"; "route"; "departure_time"; "arrival_time"; "price"; "status"].

(** ** The page load

    [initializeCharts] creates the three charts without labels or data;
    [initializeDashboard] then updates the cards and loads the sample data.
    The [DOMContentLoaded] handler runs [initializeDashboard], registers the
    event listeners (which changes nothing on the dashboard) and starts
    [loadInitialData]. *)
Section PageLoad.
Variable rnd : nat -> Q.
Variable todayISO : string.
Variable dayLabel : nat -> string.

Definition initializeCharts (st : Dashboard) : Dashboard :=
  set_charts st {| labels := []; data := [] |} {| labels := []; data := [] |}
    {| labels := []; data := [] |}.

Definition initializeDashboard (st : Dashboard) : M Dashboard :=
  loadSampleData rnd todayISO dayLabel (updateStatistics (initializeCharts st)).

Definition pageLoad (net : JsObj -> FetchResult) (st : Dashboard) : M Dashboard :=
  st <- initializeDashboard st ;;
  loadInitialData rnd todayISO dayLabel net st.

End PageLoad.

(** An endpoint that answers 2xx with a body that holds no [flights]. *)
Definition net_no_flights : JsObj -> FetchResult :=
  fun _ => FetchResponse true (BodyData None).

(** ** Sums

    The sum of a list of numbers. *)
Definition sum_Z (l : list Z) : Z := foldr Z.add 0 l.

(** The price of a flight, when it is a number. *)
Definition price_of (f : JsObj) : Z :=
  match prop f "price" with
  | JNum p => p
  | _ => 0
  end.

(** ** Reading a CSV text back

    The number of occurrences of the character [c] in [s]. *)
Fixpoint count_char (c : ascii) (s : string) : nat :=
  match s with
  | EmptyString => 0%nat
  | String a r => ((if Ascii.eqb a c then 1 else 0) + count_char c r)%nat
  end.

(** The pieces of [s] between the occurrences of the character [c], as
    [s.split(c)] gives them. *)
Fixpoint split_on (c : ascii) (s : string) : list string :=
  match s with
  | EmptyString => [EmptyString]
  | String a r =>
      if Ascii.eqb a c then EmptyString :: split_on c r
      else match split_on c r with
           | x :: xs => String a x :: xs
           | [] => [String a EmptyString]
           end
  end.

Definition LF_char : ascii := Ascii.ascii_of_nat 10.

(** The lines of a text and the cells of each line. *)
Definition parse_csv (text : string) : list (list string) :=
  split_on ","%char <$> split_on LF_char text.

(** The texts of the seven cells of a record. *)
Definition field_texts (flight : JsObj) : list string :=
  (fun k => join_elem (prop flight k)) <$> shown_properties.

(** Three flights on two routes. *)
Definition three_flights : list JsObj := [flight_on "A-B"; flight_on "C-D"; flight_on "A-B"].

(** * Properties *)

(** ** Reading the properties of a generated record *)

Section FlightLiteral.
Variables v1 v2 v3 v4 v5 v6 v7 v8 v9 v10 v11 : JsVal.

Lemma literal_origin :
  prop (flight_literal v1 v2 v3 v4 v5 v6 v7 v8 v9 v10 v11) "origin" = v3.
Proof. reflexivity. Qed.

Lemma literal_destination :
  prop (flight_literal v1 v2 v3 v4 v5 v6 v7 v8 v9 v10 v11) "destination" = v4.
Proof. reflexivity. Qed.

Lemma literal_departure_time :
  prop (flight_literal v1 v2 v3 v4 v5 v6 v7 v8 v9 v10 v11) "departure_time" = v6.
Proof. reflexivity. Qed.

Lemma literal_arrival_time :
  prop (flight_literal v1 v2 v3 v4 v5 v6 v7 v8 v9 v10 v11) "arrival_time" = v7.
Proof. reflexivity. Qed.

Lemma literal_duration :
  prop (flight_literal v1 v2 v3 v4 v5 v6 v7 v8 v9 v10 v11) "duration" = v9.
Proof. reflexivity. Qed.

End FlightLiteral.

(** ** Drawing integers from the random source *)

Lemma Qfloor_scaled_range (r : Q) (n : Z) :
  (0 <= r)%Q -> (r < 1)%Q -> 0 < n -> 0 <= Qfloor (r * inject_Z n) < n.
Proof.
  intros H0 H1 Hn.
  assert (Hq : (0 < inject_Z n)%Q).
  { change 0%Q with (inject_Z 0). rewrite <- Zlt_Qlt. exact Hn. }
  split.
  - change 0 with (Qfloor (inject_Z 0)) at 1.
    rewrite Qfloor_Z. change 0 with (Qfloor 0).
    apply Qfloor_resp_le.
    apply Qmult_le_0_compat; [exact H0 | apply Qlt_le_weak, Hq].
  - rewrite Zlt_Qlt.
    eapply Qle_lt_trans; [apply Qfloor_le |].
    rewrite <- (Qmult_1_l (inject_Z n)) at 2.
    apply Qmult_lt_compat_r; assumption.
Qed.

Lemma at_index_in_range (a : list string) (i : Z) :
  0 <= i < Z.of_nat (length a) -> exists s, at_index a i = JStr s /\ s ∈ a.
Proof.
  intros [Hlo Hhi]. unfold at_index.
  destruct (Z.ltb_spec i 0) as [Hneg | _]; [lia |].
  destruct (a !! Z.to_nat i) as [s |] eqn:Hs.
  - exists s. split; [reflexivity |]. apply list_elem_of_lookup. eauto.
  - apply lookup_ge_None in Hs. lia.
Qed.

Lemma filter_other_absent (l : list string) (v : JsVal) :
  (forall a, a ∈ l -> JStr a <> v) -> filter (fun a => JStr a <> v) l = l.
Proof.
  induction l as [| a l IH]; intros Hl; [reflexivity |].
  rewrite filter_cons. destruct (decide (JStr a <> v)) as [_ | Hn].
  - f_equal. apply IH. intros b Hb. apply Hl. right. exact Hb.
  - exfalso. apply Hn, Hl. left.
Qed.

Lemma filter_other_length (l : list string) (v : JsVal) :
  NoDup l -> (length l <= S (length (filter (fun a => JStr a <> v) l)))%nat.
Proof.
  induction 1 as [| a l Hnotin Hnodup IH]; [simpl; lia |].
  rewrite filter_cons. destruct (decide (JStr a <> v)) as [_ | Heq].
  - simpl. lia.
  - apply dec_stable in Heq. subst v.
    rewrite filter_other_absent; [simpl; lia |].
    intros b Hb [= ->]. contradiction.
Qed.

Lemma airports_NoDup : NoDup airports.
Proof. apply (bool_decide_unpack _). vm_compute. exact I. Qed.

Lemma airports_except_length (v : JsVal) :
  (15 <= length (airports_except v))%nat.
Proof.
  pose proof (filter_other_length airports v airports_NoDup) as H.
  unfold airports_except. simpl length in H. lia.
Qed.

(** ** Clock strings *)

Lemma clock_roundtrip_table :
  forallb (fun hh =>
    forallb (fun mm => bool_decide (parse_clock (clock hh mm) = Some (hh, mm)))
            (seqZ 0 60))
    (seqZ 0 24) = true.
Proof. vm_compute. reflexivity. Qed.

Lemma clock_roundtrip (hh mm : Z) :
  0 <= hh < 24 -> 0 <= mm < 60 -> parse_clock (clock hh mm) = Some (hh, mm).
Proof.
  intros Hh Hm.
  assert (Hin : forall x n, 0 <= x < n -> In x (seqZ 0 n)).
  { intros x n Hx. apply list_elem_of_In, elem_of_seqZ. lia. }
  pose proof (proj1 (forallb_forall _ _) clock_roundtrip_table hh (Hin _ _ Hh)) as T.
  pose proof (proj1 (forallb_forall _ _) T mm (Hin _ _ Hm)) as T'.
  clear T. rename T' into T. apply Is_true_true_2 in T.
  apply bool_decide_unpack in T. exact T.
Qed.

Lemma clock_inj (hh mm hh' mm' : Z) :
  0 <= hh < 24 -> 0 <= mm < 60 -> 0 <= hh' < 24 -> 0 <= mm' < 60 ->
  clock hh mm = clock hh' mm' -> hh = hh' /\ mm = mm'.
Proof.
  intros Hh Hm Hh' Hm' Heq.
  apply (f_equal parse_clock) in Heq.
  rewrite !clock_roundtrip in Heq by assumption.
  injection Heq as -> ->. split; reflexivity.
Qed.

(** ** The generator *)

Section Generator.
Variable rnd : nat -> Q.
Variable todayISO : string.
Hypothesis rnd_range : forall k, (0 <= rnd k)%Q /\ (rnd k < 1)%Q.

Lemma bind_random_below {B} (n : Z) (k : Z -> M B) (c : nat) :
  bind (random_below rnd n) k c = k (Qfloor (rnd c * inject_Z n)) (S c).
Proof. reflexivity. Qed.

Lemma bind_Math_random {B} (k : Q -> M B) (c : nat) :
  bind (Math_random rnd) k c = k (rnd c) (S c).
Proof. reflexivity. Qed.

Lemma bind_ret {A B} (a : A) (k : A -> M B) (c : nat) :
  bind (ret a) k c = k a c.
Proof. reflexivity. Qed.

Lemma draw_range (c : nat) (n : Z) :
  0 < n -> 0 <= Qfloor (rnd c * inject_Z n) < n.
Proof. intros Hn. destruct (rnd_range c). apply Qfloor_scaled_range; assumption. Qed.

Lemma draw_shifted_range (c : nat) :
  1000 <= Qfloor (rnd c * 9000 + 1000) < 10000.
Proof.
  destruct (rnd_range c) as [H0 H1]. split.
  - rewrite <- (Qfloor_Z 1000) at 1. apply Qfloor_resp_le.
    change (inject_Z 1000) with 1000%Q. Lqa.lra.
  - rewrite Zlt_Qlt. eapply Qle_lt_trans; [apply Qfloor_le |].
    change (inject_Z 10000) with 10000%Q. Lqa.lra.
Qed.

Lemma bind_run {A B} (m : M A) (k : A -> M B) (c c' : nat) (a : A) :
  m c = (Some a, c') -> bind m k c = k a c'.
Proof. intros H. unfold bind. rewrite H. reflexivity. Qed.

Lemma pick_origin (origin : string) (c : nat) :
  exists fromA c',
    (if truthy (JStr origin) then ret (JStr origin)
     else i <- random_below rnd (Z.of_nat (length airports)) ;;
          ret (at_index airports i)) c = (Some fromA, c')
    /\ (if truthy (JStr origin) then fromA = JStr origin
        else exists a, a ∈ airports /\ fromA = JStr a).
Proof.
  destruct (truthy (JStr origin)).
  - exists (JStr origin), c. split; reflexivity.
  - rewrite bind_random_below.
    destruct (at_index_in_range airports (Qfloor (rnd c * inject_Z 16))) as (a & Ha & Hin).
    { apply (draw_range c 16). lia. }
    exists (JStr a), (S c). split; [unfold ret; f_equal; f_equal; exact Ha |].
    exists a. split; [exact Hin | reflexivity].
Qed.

Lemma pick_destination (destination : string) (fromA : JsVal) (c : nat) :
  exists toA c',
    (if truthy (JStr destination) then ret (JStr destination)
     else i <- random_below rnd (Z.of_nat (length airports) - 1) ;;
          ret (at_index (airports_except fromA) i)) c = (Some toA, c')
    /\ (if truthy (JStr destination) then toA = JStr destination
        else exists b, b ∈ airports /\ toA = JStr b /\ toA <> fromA).
Proof.
  destruct (truthy (JStr destination)).
  - exists (JStr destination), c. split; reflexivity.
  - rewrite bind_random_below.
    destruct (at_index_in_range (airports_except fromA) (Qfloor (rnd c * inject_Z 15)))
      as (b & Hb & Hin).
    { pose proof (draw_range c 15 ltac:(lia)).
      pose proof (airports_except_length fromA). lia. }
    exists (JStr b), (S c). split; [unfold ret; f_equal; f_equal; exact Hb |].
    apply list_elem_of_filter in Hin as [Hne Hin].
    exists b. split; [exact Hin | split; [reflexivity | exact Hne]].
Qed.

Lemma sampleFlight_generated (origin destination : string) (c : nat) :
  exists f c', sampleFlight rnd todayISO origin destination c = (Some f, c')
               /\ generated origin destination todayISO f.
Proof.
  unfold sampleFlight.
  destruct (pick_origin origin c) as (fromA & c1 & Hrun1 & Hfrom).
  rewrite (bind_run _ _ _ _ _ Hrun1).
  destruct (pick_destination destination fromA c1) as (toA & c2 & Hrun2 & Hto).
  rewrite (bind_run _ _ _ _ _ Hrun2).
  change (Z.of_nat (length airlines)) with 8.
  change (Z.of_nat (length statuses)) with 4.
  rewrite !bind_random_below.
  destruct (at_index_in_range airlines (Qfloor (rnd c2 * inject_Z 8))) as (al & Hal & Halin).
  { apply (draw_range c2 8). lia. }
  rewrite Hal, bind_ret, bind_Math_random, !bind_random_below.
  destruct (at_index_in_range statuses
              (Qfloor (rnd (S (S (S (S (S (S (S (S c2)))))))) * inject_Z 4)))
    as (stt & Hstt & Hsttin).
  { apply (draw_range _ 4). lia. }
  rewrite Hstt.
  eexists _, _. split; [reflexivity |].
  pose proof (draw_range (S c2) 800 ltac:(lia)).
  pose proof (draw_shifted_range (S (S c2))).
  pose proof (draw_range (S (S (S c2))) 24 ltac:(lia)).
  pose proof (draw_range (S (S (S (S c2)))) 60 ltac:(lia)).
  pose proof (draw_range (S (S (S (S (S c2))))) 6 ltac:(lia)).
  pose proof (draw_range (S (S (S (S (S (S c2)))))) 60 ltac:(lia)).
  pose proof (draw_range (S (S (S (S (S (S (S c2))))))) 60 ltac:(lia)).
  exists al, stt, fromA, toA.
  eexists _, _, _, _, _, _, _.
  split; [reflexivity |].
  repeat split; try assumption; try lia.
Qed.

(** The loop never throws and pushes one generated record per iteration. *)
Lemma sampleLoop_generated (n : nat) (origin destination : string) (c : nat) :
  exists flights c',
    sampleLoop rnd todayISO n origin destination c = (Some flights, c')
    /\ length flights = n
    /\ Forall (generated origin destination todayISO) flights.
Proof.
  revert c. induction n as [| n IH]; intros c.
  - exists [], c. repeat split. constructor.
  - simpl.
    destruct (sampleFlight_generated origin destination c) as (f & c1 & Hrun & Hf).
    rewrite (bind_run _ _ _ _ _ Hrun).
    destruct (IH c1) as (fs & c2 & Hrun2 & Hlen & Hall).
    rewrite (bind_run _ _ _ _ _ Hrun2).
    exists (f :: fs), c2. split; [reflexivity |]. split; [simpl; congruence |].
    constructor; assumption.
Qed.

(** C1. Under any outcome of the random source, [generateSampleData(count)]
    called without origin and destination returns (it does not throw)
    exactly [count] records, for every non-negative [count], and in every
    record the origin differs from the destination. *)
Theorem generateSampleData_count_distinct (count : Z) (c : nat) :
  0 <= count ->
  exists flights c',
    generateSampleData rnd todayISO count "" "" c = (Some flights, c')
    /\ Z.of_nat (length flights) = count
    /\ Forall (fun f => prop f "origin" <> prop f "destination") flights.
Proof.
  intros Hcount. unfold generateSampleData.
  destruct (sampleLoop_generated (Z.to_nat count) "" "" c)
    as (flights & c' & Hrun & Hlen & Hall).
  exists flights, c'. split; [exact Hrun |]. split; [lia |].
  eapply Forall_impl; [exact Hall |].
  intros f (al & stt & fromA & toA & n & price & dh & dm & d & m & mins & -> & Hrest).
  destruct Hrest as (_ & _ & _ & (b & _ & _ & Hne) & _).
  rewrite literal_origin, literal_destination. congruence.
Qed.


End Generator.

(** The count and the distinct airports of three records drawn from
    [rnd_cycle]. *)
Lemma generateSampleData_count_distinct_witness :
  (forall k, (0 <= rnd_cycle k)%Q /\ (rnd_cycle k < 1)%Q)
  /\ 0 <= 3
  /\ exists flights c',
       generateSampleData rnd_cycle "2026-11-01" 3 "" "" 0%nat = (Some flights, c')
       /\ Z.of_nat (length flights) = 3
       /\ Forall (fun f => prop f "origin" <> prop f "destination") flights.
Proof.
  assert (H : forall k, (0 <= rnd_cycle k)%Q /\ (rnd_cycle k < 1)%Q).
  { intros k. unfold rnd_cycle, Qle, Qlt. simpl. lia. }
  split; [exact H |]. split; [lia |].
  apply (generateSampleData_count_distinct rnd_cycle "2026-11-01" H); lia.
Defined.

Lemma rnd_cycle_range (k : nat) : (0 <= rnd_cycle k)%Q /\ (rnd_cycle k < 1)%Q.
Proof. unfold rnd_cycle, Qle, Qlt. simpl. lia. Qed.


Lemma rnd_cycle_first_times :
  fmap (M := option) (fmap (M := list)
         (fun f => (prop f "departure_time", prop f "arrival_time")))
    (fst (generateSampleData rnd_cycle "2026-11-01" 1 "" "" 0%nat))
  = Some [(JStr "12:12", JStr "18:48")].
Proof. vm_compute. reflexivity. Qed.


(** ** CSV export *)

(** C2, as the code has it. [convertToCSV] reads the properties
    [flight_number], [departure_time] and [arrival_time]: applied to the
    one-element list holding the example record under these names, it
    returns the header row, a newline, and the seven fields joined by
    commas. *)
Theorem convertToCSV_example :
  convertToCSV [csv_example_snake] = csv_example_text.
Proof. vm_compute. reflexivity. Qed.

(** C2 as stated fails: on the record whose properties are named
    [flightNumber], [departureTime] and [arrivalTime] the three reads yield
    [undefined], which [join] renders as empty fields. *)
Lemma convertToCSV_example_counterexample :
  convertToCSV [csv_example_camel]
  = "Flight Number,Airline,Route,Departure,Arrival,Price,Status" +:+ LF
    +:+ ",American Airlines,JFK-LAX,,,350,On Time"
  /\ convertToCSV [csv_example_camel] <> csv_example_text.
Proof. split; [vm_compute; reflexivity | vm_compute; discriminate]. Qed.

(** ** Statistic cards *)

Lemma num_or_shown (a b : Z) : num_or a b = shown_for a b.
Proof.
  unfold num_or, shown_for.
  destruct (Z.eqb_spec a 0); destruct (decide (a = 0)); congruence.
Qed.

Lemma remove_dups_distinct (l : list JsVal) :
  distinct_count l (Z.of_nat (length (remove_dups l))).
Proof.
  exists (remove_dups l). split; [apply NoDup_remove_dups |].
  split; [intros x; apply elem_of_remove_dups | reflexivity].
Qed.

(** Two duplicate-free lists with the same elements have the same length:
    the number of distinct values is determined by the list. *)
Lemma distinct_count_unique (l : list JsVal) (n m : Z) :
  distinct_count l n -> distinct_count l m -> n = m.
Proof.
  intros (s & Hs & Hin & ->) (t & Ht & Hin' & ->). f_equal.
  apply Permutation_length, NoDup_Permutation; try assumption.
  intros x. rewrite Hin, Hin'. reflexivity.
Qed.

(** C3. The four cards show the number of flights and the numbers of
    distinct routes, airlines and airports (origins and destinations
    together), each replaced by its default 300, 10, 10, 10 when it is zero.
    On an empty collection all four cards show the defaults; on any other
    collection none does, all four computed numbers being positive. *)
Theorem updateStatistics_cards (st : Dashboard) :
  let flights := currentFlightData st in
  let shown := statCards (updateStatistics st) in
  exists total routes airlines airports,
    total = Z.of_nat (length flights)
    /\ distinct_count ((fun f => prop f "route") <$> flights) routes
    /\ distinct_count ((fun f => prop f "airline") <$> flights) airlines
    /\ distinct_count (flights ≫= (fun f => [prop f "origin"; prop f "destination"])) airports
    /\ stat_totalFlights shown = shown_for total 300
    /\ stat_uniqueRoutes shown = shown_for routes 10
    /\ stat_airlines shown = shown_for airlines 10
    /\ stat_airports shown = shown_for airports 10
    /\ (flights = [] ->
        total = 0 /\ routes = 0 /\ airlines = 0 /\ airports = 0
        /\ shown = {| stat_totalFlights := 300; stat_uniqueRoutes := 10;
                      stat_airlines := 10; stat_airports := 10 |})
    /\ (flights <> [] ->
        shown = {| stat_totalFlights := total; stat_uniqueRoutes := routes;
                   stat_airlines := airlines; stat_airports := airports |}).
Proof.
  intros flights shown. subst shown. unfold updateStatistics. fold flights.
  destruct st as [i1 i2 i3 fl sc rc ac pc ft tr lo ef]. simpl in flights. subst flights.
  cbn [statCards set_statCards currentFlightData stat_totalFlights stat_uniqueRoutes
       stat_airlines stat_airports dashboardStats].
  eexists _, _, _, _.
  split; [reflexivity |].
  split; [apply remove_dups_distinct |].
  split; [apply remove_dups_distinct |].
  split; [apply remove_dups_distinct |].
  rewrite !num_or_shown.
  repeat (split; [reflexivity |]).
  split.
  - intros ->. repeat split.
  - intros Hne. destruct fl as [| f fl]; [congruence |].
    unfold shown_for. cbn [fmap list_fmap mbind list_bind app].
    repeat match goal with
    | |- context [remove_dups (?x :: ?l)] =>
        let H := fresh "H" in
        assert (H : remove_dups (x :: l) <> []) by
          (intros E; assert (Hx : x ∈ remove_dups (x :: l)) by
             (apply elem_of_remove_dups; left);
           rewrite E in Hx; inversion Hx);
        destruct (remove_dups (x :: l)); [congruence | clear H]
    end.
    cbn [length]. repeat case_decide; try lia. reflexivity.
Qed.

(** ** Export *)

Lemma log_same_page (st : Dashboard) (e : Effect) : same_page st (log st e).
Proof. repeat split. Qed.

(** C5. On an empty collection [exportData] raises the alert and does
    nothing else: no download is recorded and the page is unchanged. On any
    other collection it offers one download, [airline_data.csv], whose
    content is the CSV text of the whole collection, and the page is
    unchanged as well. *)
Theorem exportData_alert_or_download (st : Dashboard) :
  same_page st (exportData st)
  /\ (currentFlightData st = [] ->
      effects (exportData st)
      = (effects st ++ [Alert "No data to export. Please load some flight data first."])%list
      /\ filter is_download (effects (exportData st)) = filter is_download (effects st))
  /\ (currentFlightData st <> [] ->
      effects (exportData st)
      = (effects st
         ++ [Download "airline_data.csv" (convertToCSV (currentFlightData st))])%list).
Proof.
  unfold exportData.
  destruct (currentFlightData st) as [| f fl] eqn:E; cbn [length Nat.eqb].
  - split; [apply log_same_page |]. split; [| congruence].
    intros _. cbn [effects log]. split; [reflexivity |].
    rewrite filter_app. cbn. apply app_nil_r.
  - split; [apply log_same_page |]. split; [discriminate |].
    intros _. reflexivity.
Qed.

(** ** The price trend *)

Lemma Math_round_lower (x : R) (n : Z) : (IZR n <= x)%R -> n <= Math_round x.
Proof.
  intros Hx. unfold Math_round.
  destruct (base_Int_part (x + / 2)) as [_ Hgt].
  assert (H : (IZR (n - 1) < IZR (Int_part (x + / 2)))%R).
  { rewrite minus_IZR. Lra.lra. }
  apply lt_IZR in H. lia.
Qed.

Section PriceTrend.
Variable rnd : nat -> Q.
Variable dayLabel : nat -> string.
Hypothesis rnd_range : forall k, (0 <= rnd k)%Q /\ (rnd k < 1)%Q.

(** The loop in closed form: with [n] iterations left it never throws,
    calls [Math.random()] [n] times and pushes the points of the day
    offsets [n - 1] down to [0]. *)
Lemma trendLoop_closed (n c : nat) :
  trendLoop rnd dayLabel n c
  = (Some (dayLabel <$> rev (seq 0 n),
           (fun k => trendPrice (n - 1 - k) (rnd (c + k))) <$> seq 0 n),
     (c + n)%nat).
Proof.
  revert c. induction n as [| i IH]; intros c.
  - simpl. unfold ret. repeat f_equal. lia.
  - cbn [trendLoop]. rewrite bind_Math_random.
    rewrite (bind_run _ _ _ _ _ (IH (S c))). unfold ret. cbn [fst snd].
    f_equal; [| lia]. f_equal. f_equal.
    + rewrite seq_S, rev_app_distr. reflexivity.
    + cbn [seq fmap list_fmap]. f_equal.
      * f_equal; [lia | f_equal; lia].
      * rewrite <- seq_shift, <- list_fmap_compose.
        apply list_fmap_ext. intros _ k _. cbn. f_equal; [lia | f_equal; lia].
Qed.

Lemma variation_range (k : nat) :
  (-50 <= (Q2R (rnd k) - 5 / 10) * 100 < 50)%R.
Proof.
  destruct (rnd_range k) as [H0 H1].
  apply Qle_Rle in H0. apply Qlt_Rlt in H1.
  rewrite RMicromega.Q2R_0 in H0. rewrite RMicromega.Q2R_1 in H1. Lra.lra.
Qed.


Lemma generatePriceTrend_total (c : nat) :
  exists chart, generatePriceTrend rnd dayLabel c = (Some chart, (c + 31)%nat).
Proof.
  unfold generatePriceTrend.
  rewrite (bind_run _ _ _ _ _ (trendLoop_closed 31 c)). eexists. reflexivity.
Qed.

Lemma generatePriceTrend_series_total (c : nat) :
  exists chart, generatePriceTrend rnd dayLabel c = (Some chart, (c + 31)%nat)
                /\ length (data chart) = 31%nat.
Proof.
  unfold generatePriceTrend.
  rewrite (bind_run _ _ _ _ _ (trendLoop_closed 31 c)). eexists.
  split; [reflexivity |]. cbn [data snd]. rewrite length_fmap, length_seq. reflexivity.
Qed.

End PriceTrend.

(** ** Rendering *)

Section Rendering.
Variable rnd : nat -> Q.
Variable todayISO : string.
Variable dayLabel : nat -> string.

(** [updateDashboard] never throws, makes the 31 calls of the price trend,
    leaves inputs, collection, overlay and effects alone, and derives every
    view from the collection only. *)
Lemma updateDashboard_run (st : Dashboard) (c : nat) :
  exists st',
    updateDashboard rnd dayLabel st c = (Some st', (c + 31)%nat)
    /\ input_fromAirport st' = input_fromAirport st
    /\ input_toAirport st' = input_toAirport st
    /\ input_dataLimit st' = input_dataLimit st
    /\ currentFlightData st' = currentFlightData st
    /\ loadingOverlay st' = loadingOverlay st
    /\ effects st' = effects st
    /\ Some (views st') = render rnd dayLabel (currentFlightData st) c
    /\ statCards st' = statCards (updateStatistics st).
Proof.
  destruct (generatePriceTrend_total rnd dayLabel c) as [chart Hchart].
  unfold render, updateDashboard, updateCharts, updateChartsWithSampleData.
  destruct st as [i1 i2 i3 fl sc rc ac pc ft tr lo ef].
  cbn [currentFlightData updateStatistics set_statCards set_currentFlightData
       initialDashboard].
  destruct fl as [| f fl]; cbn [length Nat.eqb];
    unfold bind; rewrite Hchart; unfold ret; cbn [fst fmap option_fmap option_map];
    eexists; (split; [reflexivity |]); repeat split.
Qed.

End Rendering.

(** ** Loading *)

Lemma slice0_length {A} (a : list A) (limit : Z) :
  0 <= limit -> Z.of_nat (length (slice0 a (Some limit))) <= limit.
Proof.
  intros Hl. unfold slice0.
  destruct (Z.ltb_spec limit 0) as [Hneg | _]; [lia |].
  rewrite length_take. lia.
Qed.

(** Projections of a dashboard whose overlay has just been hidden. *)
Ltac hidden st :=
  change (currentFlightData (hideLoading st)) with (currentFlightData st);
  change (views (hideLoading st)) with (views st);
  change (loadingOverlay (hideLoading st)) with false;
  change (input_fromAirport (hideLoading st)) with (input_fromAirport st);
  change (input_toAirport (hideLoading st)) with (input_toAirport st);
  change (input_dataLimit (hideLoading st)) with (input_dataLimit st);
  change (effects (hideLoading st)) with (effects st).

Section Loading.
Variable rnd : nat -> Q.
Variable todayISO : string.
Variable dayLabel : nat -> string.
Hypothesis rnd_range : forall k, (0 <= rnd k)%Q /\ (rnd k < 1)%Q.

Lemma generateSampleDataN_run (limit : option Z) (origin destination : string) (c : nat) :
  exists flights c',
    generateSampleDataN rnd todayISO limit origin destination c = (Some flights, c')
    /\ length flights = match limit with Some n => Z.to_nat n | None => 0%nat end
    /\ Forall (generated origin destination todayISO) flights.
Proof.
  destruct limit as [n |]; cbn [generateSampleDataN].
  - apply (sampleLoop_generated rnd todayISO rnd_range).
  - exists [], c. repeat split. constructor.
Qed.

(** The sample fallback of [loadFilteredData], from the dashboard [st] with
    the overlay shown: generate, render, hide the overlay. *)
Lemma sample_fallback_run (st : Dashboard) (limit : option Z) (c : nat) :
  exists st' c' c0,
    (flights <- generateSampleDataN rnd todayISO limit
                  (input_fromAirport st) (input_toAirport st) ;;
     st1 <- updateDashboard rnd dayLabel (set_currentFlightData st flights) ;;
     ret (hideLoading st1)) c = (Some st', c')
    /\ generateSampleDataN rnd todayISO limit (input_fromAirport st) (input_toAirport st) c
       = (Some (currentFlightData st'), c0)
    /\ loadingOverlay st' = false
    /\ Some (views st') = render rnd dayLabel (currentFlightData st') c0
    /\ input_fromAirport st' = input_fromAirport st
    /\ input_toAirport st' = input_toAirport st
    /\ input_dataLimit st' = input_dataLimit st
    /\ effects st' = effects st.
Proof.
  destruct (generateSampleDataN_run limit (input_fromAirport st) (input_toAirport st) c)
    as (flights & c0 & Hgen & _).
  rewrite (bind_run _ _ _ _ _ Hgen).
  destruct (updateDashboard_run rnd dayLabel (set_currentFlightData st flights) c0)
    as (st1 & Hrun & H1 & H2 & H3 & H4 & H5 & H6 & H7 & _).
  rewrite (bind_run _ _ _ _ _ Hrun).
  exists (hideLoading st1), (c0 + 31)%nat, c0.
  split; [reflexivity |].
  hidden st1. rewrite ?H1, ?H2, ?H3, ?H4, ?H6.
  split; [exact Hgen |]. repeat split; assumption.
Qed.

(** The search request carries the airport codes in upper case. *)
Lemma searchParams_upper_case (fromAirport toAirport : string) :
  fromAirport <> "" -> toAirport <> "" ->
  searchParams fromAirport toAirport
  = list_to_map [("origin", JStr (toUpperCase fromAirport));
                 ("destination", JStr (toUpperCase toAirport))].
Proof.
  intros Hf Ht. unfold searchParams, truthy.
  destruct (String.eqb_spec fromAirport ""); [contradiction |].
  destruct (String.eqb_spec toAirport ""); [contradiction |].
  cbn [negb list_to_map foldr uncurry fst snd].
  apply insert_insert_ne. discriminate.
Qed.

(** What [loadFilteredData] does, by the answer of the endpoint. It never
    throws; it ends with the overlay hidden and every view derived from the
    collection it has just stored. *)
Lemma loadFilteredData_run (net : JsObj -> FetchResult) (st : Dashboard) (c : nat) :
  exists st' c' c0,
    loadFilteredData rnd todayISO dayLabel net st c = (Some st', c')
    /\ loadingOverlay st' = false
    /\ Some (views st') = render rnd dayLabel (currentFlightData st') c0
    /\ input_fromAirport st' = input_fromAirport st
    /\ input_toAirport st' = input_toAirport st
    /\ input_dataLimit st' = input_dataLimit st
    /\ match net (searchParams (input_fromAirport st) (input_toAirport st)) with
       | FetchResponse true (BodyData a) =>
           currentFlightData st'
           = match a with
             | Some l => slice0 l (parseInt (input_dataLimit st))
             | None => []
             end
           /\ effects st' = effects st
       | FetchResponse false _ =>
           generateSampleDataN rnd todayISO (parseInt (input_dataLimit st))
             (input_fromAirport st) (input_toAirport st) c
           = (Some (currentFlightData st'), c0)
           /\ effects st' = effects st
       | _ =>
           generateSampleDataN rnd todayISO (parseInt (input_dataLimit st))
             (input_fromAirport st) (input_toAirport st) c
           = (Some (currentFlightData st'), c0)
           /\ effects st' = (effects st ++ [ConsoleError "Error loading data:"])%list
       end.
Proof.
  unfold loadFilteredData, try_catch.
  pose proof (sample_fallback_run (showLoading st) (parseInt (input_dataLimit st)) c)
    as (s1 & c1 & d1 & Hrun1 & Hgen1 & Hs1).
  pose proof (sample_fallback_run (log (showLoading st) (ConsoleError "Error loading data:"))
                (parseInt (input_dataLimit st)) c)
    as (s2 & c2 & d2 & Hrun2 & Hgen2 & Hs2).
  cbn [showLoading log set_loadingOverlay input_fromAirport input_toAirport
       input_dataLimit effects] in Hrun1, Hgen1, Hs1, Hrun2, Hgen2, Hs2.
  destruct (net (searchParams (input_fromAirport st) (input_toAirport st)))
    as [| [|] [| a]].
  - unfold throw at 1. cbn [showLoading log set_loadingOverlay]. rewrite Hrun2.
    exists s2, c2, d2. split; [reflexivity |]. intuition.
  - unfold throw at 1. cbn [showLoading log set_loadingOverlay]. rewrite Hrun2.
    exists s2, c2, d2. split; [reflexivity |]. intuition.
  - match goal with
    | |- context [updateDashboard rnd dayLabel ?s] =>
        destruct (updateDashboard_run rnd dayLabel s c)
          as (st1 & Hrun & H1 & H2 & H3 & H4 & H5 & H6 & H7 & _)
    end.
    rewrite (bind_run _ _ _ _ _ Hrun). unfold ret.
    exists (hideLoading st1), (c + 31)%nat, c. split; [reflexivity |].
    hidden st1. rewrite ?H1, ?H2, ?H3, ?H4, ?H6. repeat split; assumption.
  - cbn [showLoading set_loadingOverlay]. rewrite Hrun1.
    exists s1, c1, d1. split; [reflexivity |]. intuition.
  - cbn [showLoading set_loadingOverlay]. rewrite Hrun1.
    exists s1, c1, d1. split; [reflexivity |]. intuition.
Qed.

(** What [loadInitialData] does, by the answer of the endpoint. *)
Lemma loadInitialData_run (net : JsObj -> FetchResult) (st : Dashboard) (c : nat) :
  exists st' c',
    loadInitialData rnd todayISO dayLabel net st c = (Some st', c')
    /\ match net (initial_request todayISO) with
       | FetchResponse true (BodyData (Some (f :: fs))) =>
           c' = (c + 31)%nat
           /\ currentFlightData st' = f :: fs
           /\ Some (views st') = render rnd dayLabel (f :: fs) c
           /\ statCards st' = statCards (updateStatistics (set_currentFlightData st (f :: fs)))
           /\ input_fromAirport st' = input_fromAirport st
           /\ input_toAirport st' = input_toAirport st
           /\ input_dataLimit st' = input_dataLimit st
           /\ loadingOverlay st' = loadingOverlay st
           /\ effects st' = effects st
       | FetchResponse true (BodyData _) | FetchResponse false _ =>
           st' = st /\ c' = c
       | _ =>
           st' = log st (ConsoleError "Error loading initial data:") /\ c' = c
       end.
Proof.
  unfold loadInitialData, try_catch, initial_request.
  destruct (net _) as [| [|] [| [[| f fs] |]]];
    lazymatch goal with
    | |- context [updateDashboard] => idtac
    | |- _ => eexists _, _; split; [reflexivity |]; split; reflexivity
    end.
  destruct (updateDashboard_run rnd dayLabel (set_currentFlightData st (f :: fs)) c)
    as (st1 & Hrun & H1 & H2 & H3 & H4 & H5 & H6 & H7 & H8).
  rewrite Hrun. exists st1, (c + 31)%nat. split; [reflexivity |].
  repeat split; assumption.
Qed.

(** The page load: [loadSampleData] stores 50 sample records, and an
    initial remote load that fails afterwards leaves them in place. *)
Lemma page_load_keeps_sample (net : JsObj -> FetchResult) (st : Dashboard) (c : nat) :
  net (initial_request todayISO) = FetchRejects ->
  exists st1 c1 st2,
    loadSampleData rnd todayISO dayLabel st c = (Some st1, c1)
    /\ length (currentFlightData st1) = 50%nat
    /\ loadInitialData rnd todayISO dayLabel net st1 c1 = (Some st2, c1)
    /\ same_page st1 st2.
Proof.
  intros Hnet. unfold loadSampleData, generateSampleData.
  destruct (sampleLoop_generated rnd todayISO rnd_range (Z.to_nat 50) "" "" c)
    as (flights & c0 & Hgen & Hlen & _).
  rewrite (bind_run _ _ _ _ _ Hgen).
  destruct (updateDashboard_run rnd dayLabel (set_currentFlightData st flights) c0)
    as (st1 & Hrun & _ & _ & _ & Hfl & _).
  destruct (loadInitialData_run net st1 (c0 + 31)%nat) as (st2 & c2 & Hrun2 & Hcase).
  rewrite Hnet in Hcase. destruct Hcase as [-> ->].
  exists st1, (c0 + 31)%nat, (log st1 (ConsoleError "Error loading initial data:")).
  split; [exact Hrun |]. split; [rewrite Hfl; exact Hlen |].
  split; [exact Hrun2 | apply log_same_page].
Qed.


(** C7. With JFK, LAX and 50 in the filter inputs and an endpoint that
    cannot be reached or answers with a status outside 2xx,
    [loadFilteredData] sends the codes in upper case, stores exactly 50
    records, each from JFK to LAX, hides the overlay and derives every view
    from these records; a load that the endpoint answers ends in the same
    way, with the overlay hidden and every view derived from the stored
    collection. *)
Theorem loadFilteredData_fallback_JFK_LAX
    (net : JsObj -> FetchResult) (st : Dashboard) (c : nat) :
  input_fromAirport st = "JFK" -> input_toAirport st = "LAX" ->
  input_dataLimit st = "50" ->
  (net (list_to_map [("origin", JStr "JFK"); ("destination", JStr "LAX")]) = FetchRejects
   \/ exists body,
        net (list_to_map [("origin", JStr "JFK"); ("destination", JStr "LAX")])
        = FetchResponse false body) ->
  searchParams (input_fromAirport st) (input_toAirport st)
  = list_to_map [("origin", JStr "JFK"); ("destination", JStr "LAX")]
  /\ (exists st' c' c0,
     loadFilteredData rnd todayISO dayLabel net st c = (Some st', c')
     /\ length (currentFlightData st') = 50%nat
     /\ Forall (fun f => prop f "origin" = JStr "JFK" /\ prop f "destination" = JStr "LAX")
               (currentFlightData st')
     /\ loadingOverlay st' = false
     /\ Some (views st') = render rnd dayLabel (currentFlightData st') c0)
  /\ (forall net', exists st' c' c0,
        loadFilteredData rnd todayISO dayLabel net' st c = (Some st', c')
        /\ loadingOverlay st' = false
        /\ Some (views st') = render rnd dayLabel (currentFlightData st') c0).
Proof.
  intros Hfrom Hto Hlimit Hnet. split; [rewrite Hfrom, Hto; reflexivity |]. split.
  - destruct (loadFilteredData_run net st c)
      as (st' & c' & c0 & Hrun & Hoverlay & Hviews & _ & _ & _ & Hcase).
    exists st', c', c0. split; [exact Hrun |].
    rewrite Hfrom, Hto, Hlimit in Hcase.
    change (searchParams "JFK" "LAX")
      with (list_to_map [("origin", JStr "JFK"); ("destination", JStr "LAX")] : JsObj)
      in Hcase.
    assert (Hgen : generateSampleDataN rnd todayISO (parseInt "50") "JFK" "LAX" c
                   = (Some (currentFlightData st'), c0)).
    { destruct Hnet as [Hn | [body Hn]]; rewrite Hn in Hcase; apply Hcase. }
    destruct (generateSampleDataN_run (parseInt "50") "JFK" "LAX" c)
      as (fl & c1 & Hgen' & Hlen & Hall).
    rewrite Hgen in Hgen'. injection Hgen' as <- _.
    split; [exact Hlen |]. split; [| split; assumption].
    eapply Forall_impl; [exact Hall |].
    intros f (al & stt & fromA & toA & n & price & dh & dm & d & m & mins & -> & Hrest).
    destruct Hrest as (_ & _ & Ho & Hd & _). cbn in Ho, Hd. subst fromA toA.
    rewrite literal_origin, literal_destination. split; reflexivity.
  - intros net'.
    destruct (loadFilteredData_run net' st c)
      as (st' & c' & c0 & Hrun & Hoverlay & Hviews & _).
    exists st', c', c0. repeat split; assumption.
Qed.


End Loading.



(** The load from JFK to LAX with the limit at 50 against an endpoint that
    cannot be reached. *)
Lemma loadFilteredData_fallback_JFK_LAX_witness :
  (forall k, (0 <= rnd_cycle k)%Q /\ (rnd_cycle k < 1)%Q)
  /\ input_fromAirport (set_inputs initialDashboard "JFK" "LAX" "50") = "JFK"
  /\ input_toAirport (set_inputs initialDashboard "JFK" "LAX" "50") = "LAX"
  /\ input_dataLimit (set_inputs initialDashboard "JFK" "LAX" "50") = "50"
  /\ net_down (list_to_map [("origin", JStr "JFK"); ("destination", JStr "LAX")])
     = FetchRejects
  /\ searchParams (input_fromAirport (set_inputs initialDashboard "JFK" "LAX" "50"))
                  (input_toAirport (set_inputs initialDashboard "JFK" "LAX" "50"))
     = list_to_map [("origin", JStr "JFK"); ("destination", JStr "LAX")]
  /\ (exists st' c' c0,
        loadFilteredData rnd_cycle "2026-11-01" offset_label net_down
          (set_inputs initialDashboard "JFK" "LAX" "50") 0%nat = (Some st', c')
        /\ length (currentFlightData st') = 50%nat
        /\ Forall (fun f => prop f "origin" = JStr "JFK" /\ prop f "destination" = JStr "LAX")
                  (currentFlightData st')
        /\ loadingOverlay st' = false
        /\ Some (views st') = render rnd_cycle offset_label (currentFlightData st') c0)
  /\ (forall net', exists st' c' c0,
        loadFilteredData rnd_cycle "2026-11-01" offset_label net'
          (set_inputs initialDashboard "JFK" "LAX" "50") 0%nat = (Some st', c')
        /\ loadingOverlay st' = false
        /\ Some (views st') = render rnd_cycle offset_label (currentFlightData st') c0).
Proof.
  assert (H : forall k, (0 <= rnd_cycle k)%Q /\ (rnd_cycle k < 1)%Q).
  { intros k. unfold rnd_cycle, Qle, Qlt. simpl. lia. }
  split; [exact H |]. do 4 (split; [reflexivity |]).
  apply (loadFilteredData_fallback_JFK_LAX rnd_cycle "2026-11-01" offset_label H
           net_down (set_inputs initialDashboard "JFK" "LAX" "50") 0%nat);
    try reflexivity.
  left. reflexivity.
Defined.


(** ** Order in a list *)

Section Before.
Context {A : Type}.
Implicit Types (l : list A) (x y : A).

Lemma before_cons_head l x y : y ∈ l -> before (x :: l) x y.
Proof.
  intros Hy. apply list_elem_of_split in Hy as (l2 & l3 & ->).
  exists [], l2, l3. reflexivity.
Qed.

Lemma before_cons l x y z : before l x y -> before (z :: l) x y.
Proof. intros (l1 & l2 & l3 & ->). exists (z :: l1), l2, l3. reflexivity. Qed.

Lemma before_app_r l0 l x y : before l x y -> before (l0 ++ l) x y.
Proof.
  intros (l1 & l2 & l3 & ->). exists (l0 ++ l1), l2, l3.
  rewrite <- app_assoc. reflexivity.
Qed.

Lemma before_app_l l l0 x y : before l x y -> before (l ++ l0) x y.
Proof.
  intros (l1 & l2 & l3 & ->). exists l1, l2, (l3 ++ l0).
  repeat (rewrite <- app_assoc; cbn). reflexivity.
Qed.

Lemma before_app_split l l0 x y : x ∈ l -> y ∈ l0 -> before (l ++ l0) x y.
Proof.
  intros Hx Hy.
  apply list_elem_of_split in Hx as (a1 & a2 & ->).
  apply list_elem_of_split in Hy as (b1 & b2 & ->).
  exists a1, (a2 ++ b1), b2. repeat (rewrite <- app_assoc; cbn). reflexivity.
Qed.

Lemma before_filter (P : A -> Prop) `{!forall a, Decision (P a)} l x y :
  before l x y -> P x -> P y -> before (filter P l) x y.
Proof.
  intros (l1 & l2 & l3 & ->) Hx Hy.
  exists (filter P l1), (filter P l2), (filter P l3).
  rewrite filter_app, filter_cons_True, filter_app, filter_cons_True by assumption.
  reflexivity.
Qed.

Lemma before_lookup l x y :
  before l x y -> exists i j, (i < j)%nat /\ l !! i = Some x /\ l !! j = Some y.
Proof.
  intros (l1 & l2 & l3 & ->).
  exists (length l1), (length (l1 ++ x :: l2)).
  split; [rewrite length_app; cbn; lia |]. split.
  - apply list_lookup_middle. reflexivity.
  - change (l1 ++ x :: l2 ++ y :: l3) with (l1 ++ (x :: l2) ++ y :: l3).
    rewrite app_assoc. apply list_lookup_middle. reflexivity.
Qed.

Lemma lookup_before l i j x y :
  l !! i = Some x -> l !! j = Some y -> (i < j)%nat -> before l x y.
Proof.
  intros Hi Hj Hij.
  rewrite <- (take_drop_middle l i x Hi).
  apply before_app_r, before_cons_head.
  apply list_elem_of_lookup. exists (j - S i)%nat.
  rewrite lookup_drop. replace (S i + (j - S i))%nat with j by lia. exact Hj.
Qed.

Lemma before_irrefl l x : NoDup l -> ~ before l x x.
Proof.
  intros Hnd Hb. apply before_lookup in Hb as (i & j & Hij & Hi & Hj).
  pose proof (NoDup_lookup _ _ _ _ Hnd Hi Hj). lia.
Qed.

Lemma before_asym l x y : NoDup l -> before l x y -> ~ before l y x.
Proof.
  intros Hnd Hxy Hyx.
  apply before_lookup in Hxy as (i & j & Hij & Hi & Hj).
  apply before_lookup in Hyx as (i' & j' & Hij' & Hi' & Hj').
  pose proof (NoDup_lookup _ _ _ _ Hnd Hi Hj').
  pose proof (NoDup_lookup _ _ _ _ Hnd Hj Hi'). lia.
Qed.

End Before.

Lemma before_fmap {A B} (f : A -> B) (l : list A) (x y : A) :
  before l x y -> before (f <$> l) (f x) (f y).
Proof.
  intros (l1 & l2 & l3 & ->). exists (f <$> l1), (f <$> l2), (f <$> l3).
  rewrite fmap_app, fmap_cons, fmap_app, fmap_cons. reflexivity.
Qed.

(** ** The stable sort *)

Section StableSort.
Context {A K : Type}.
Variable cmp : A -> A -> Z.
Variable weight : A -> Z.
Variable key : A -> K.
Hypothesis cmp_weight : forall x y, cmp x y = weight y - weight x.

Lemma sort_insert_perm (x : A) (l : list A) : sort_insert cmp x l ≡ₚ x :: l.
Proof.
  induction l as [| y r IH]; [reflexivity |].
  cbn. destruct (Z.ltb 0 (cmp x y)); [| reflexivity].
  rewrite IH. apply Permutation_swap.
Qed.

Lemma js_sort_perm (l : list A) : js_sort cmp l ≡ₚ l.
Proof.
  induction l as [| x l IH]; [reflexivity |].
  change (js_sort cmp (x :: l)) with (sort_insert cmp x (js_sort cmp l)).
  rewrite sort_insert_perm, IH. reflexivity.
Qed.

Lemma outranks_cons (l : list A) (z x y : A) :
  outranks weight key l x y -> outranks weight key (z :: l) x y.
Proof.
  intros [H | [H Hb]]; [left; exact H |].
  right. split; [exact H |]. cbn. apply before_cons, Hb.
Qed.

Lemma sort_insert_sorted (l s : list A) (x : A) :
  StronglySorted (outranks weight key l) s ->
  (forall y, y ∈ s -> y ∈ l) ->
  StronglySorted (outranks weight key (x :: l)) (sort_insert cmp x s).
Proof.
  intros Hs. induction Hs as [| y r Hr IH Hy]; intros Hin.
  - cbn. repeat constructor.
  - cbn. rewrite cmp_weight.
    assert (Hyl : y ∈ l) by (apply Hin; left).
    assert (Hrl : forall z, z ∈ r -> z ∈ l) by (intros z Hz; apply Hin; right; exact Hz).
    rewrite Forall_forall in Hy.
    destruct (Z.ltb_spec 0 (weight y - weight x)) as [Hlt | Hge].
    + apply StronglySorted_cons. split; [| apply IH, Hrl].
      apply Forall_forall. intros z Hz.
      rewrite sort_insert_perm in Hz. apply elem_of_cons in Hz as [-> | Hz].
      * left. lia.
      * apply outranks_cons, Hy, Hz.
    + assert (Hxy : forall z, z ∈ l -> weight z <= weight x ->
                               outranks weight key (x :: l) x z).
      { intros z Hz Hw. destruct (decide (weight z < weight x)) as [Hl | Hn].
        - left. exact Hl.
        - right. split; [lia |]. cbn. apply before_cons_head.
          apply list_elem_of_fmap. exists z. split; [reflexivity | exact Hz]. }
      apply StronglySorted_cons. split.
      * apply Forall_cons. split; [apply Hxy; [exact Hyl | lia] |].
        apply Forall_forall. intros z Hz. apply Hxy; [apply Hrl, Hz |].
        destruct (Hy z Hz) as [Hw | [Hw _]]; lia.
      * apply StronglySorted_cons. split.
        -- apply Forall_forall. intros z Hz. apply outranks_cons, Hy, Hz.
        -- clear -Hr. induction Hr as [| a r' Hr' IHr Ha]; constructor.
           ++ exact IHr.
           ++ eapply Forall_impl; [exact Ha |]. intros b. apply outranks_cons.
Qed.

Lemma js_sort_sorted (l : list A) :
  StronglySorted (outranks weight key l) (js_sort cmp l).
Proof.
  induction l as [| x l IH]; [constructor |].
  change (js_sort cmp (x :: l)) with (sort_insert cmp x (js_sort cmp l)).
  apply sort_insert_sorted; [exact IH |].
  intros y Hy. rewrite js_sort_perm in Hy. exact Hy.
Qed.

End StableSort.

Lemma StronglySorted_lookup {A} (R : A -> A -> Prop) (l : list A) (i j : nat) (x y : A) :
  StronglySorted R l -> l !! i = Some x -> l !! j = Some y -> (i < j)%nat -> R x y.
Proof.
  intros Hs. revert i j. induction Hs as [| a r Hr IH Ha]; intros i j Hi Hj Hij.
  - discriminate.
  - destruct j as [| j]; [lia |]. destruct i as [| i].
    + injection Hi as ->. rewrite Forall_forall in Ha. apply Ha.
      apply list_elem_of_lookup. exists j. exact Hj.
    + apply (IH i j); [exact Hi | exact Hj | lia].
Qed.

(** ** Dictionaries *)

Section Dictionaries.
Context {V : Type}.
Implicit Types (d : Dict V) (k : string) (v : V).

Lemma dict_set_keys d k v :
  (dict_set d k v).*1 = if decide (k ∈ d.*1) then d.*1 else d.*1 ++ [k].
Proof.
  induction d as [| [k' v'] d IH]; cbn.
  - destruct (decide (k ∈ [])) as [H | _]; [inversion H | reflexivity].
  - destruct (String.eqb_spec k' k) as [-> | Hne]; cbn.
    + rewrite decide_True by left. reflexivity.
    + rewrite IH. destruct (decide (k ∈ d.*1)) as [Hin | Hnin].
      * rewrite decide_True by (right; exact Hin). reflexivity.
      * rewrite decide_False; [reflexivity |].
        intros [E | Hin]%elem_of_cons; [congruence | contradiction].
Qed.

Lemma dict_get_set_eq d k v : dict_get (dict_set d k v) k = Some v.
Proof.
  induction d as [| [k' v'] d IH]; cbn.
  - rewrite String.eqb_refl. reflexivity.
  - destruct (String.eqb_spec k' k) as [-> | Hne]; cbn.
    + rewrite String.eqb_refl. reflexivity.
    + destruct (String.eqb_spec k' k); [contradiction | exact IH].
Qed.

Lemma dict_get_set_ne d k k' v : k' <> k -> dict_get (dict_set d k v) k' = dict_get d k'.
Proof.
  intros Hne. induction d as [| [k0 v0] d IH]; cbn.
  - destruct (String.eqb_spec k k'); [congruence | reflexivity].
  - destruct (String.eqb_spec k0 k) as [-> | Hne0]; cbn.
    + destruct (String.eqb_spec k k'); [congruence | reflexivity].
    + destruct (String.eqb_spec k0 k'); [reflexivity | exact IH].
Qed.

Lemma dict_get_None d k : dict_get d k = None <-> k ∉ d.*1.
Proof.
  induction d as [| [k' v'] d IH]; cbn.
  - split; [intros _ H; inversion H | reflexivity].
  - destruct (String.eqb_spec k' k) as [-> | Hne].
    + split; [discriminate | intros H; exfalso; apply H; left].
    + rewrite IH, not_elem_of_cons. split; [intros H; split; [congruence | exact H] |].
      intros [_ H]. exact H.
Qed.

Lemma dict_get_elem d k v : NoDup d.*1 -> (k, v) ∈ d -> dict_get d k = Some v.
Proof.
  induction d as [| [k' v'] d IH]; intros Hnd Hin; [inversion Hin |].
  cbn in Hnd. apply NoDup_cons in Hnd as [Hnotin Hnd].
  apply elem_of_cons in Hin as [[= -> ->] | Hin]; cbn.
  - rewrite String.eqb_refl. reflexivity.
  - destruct (String.eqb_spec k' k) as [-> | Hne]; [| apply IH; assumption].
    exfalso. apply Hnotin. apply list_elem_of_fmap. exists (k, v). split; [reflexivity | exact Hin].
Qed.

End Dictionaries.

(** ** First occurrences *)

Lemma first_index_None (k : string) (l : list string) : first_index k l = None <-> k ∉ l.
Proof.
  induction l as [| x l IH]; cbn.
  - split; [intros _ H; inversion H | reflexivity].
  - destruct (decide (x = k)) as [-> | Hne].
    + split; [discriminate | intros H; exfalso; apply H; left].
    + rewrite not_elem_of_cons. destruct (first_index k l); cbn.
      * split; [discriminate |]. intros [_ H]. apply IH in H. discriminate.
      * split; [| reflexivity]. intros _. split; [congruence | apply IH; reflexivity].
Qed.

Lemma first_index_None_inv (k : string) (l : list string) :
  k ∈ l -> exists p, first_index k l = Some p.
Proof.
  intros Hk. destruct (first_index k l) as [p |] eqn:E; [eauto |].
  apply first_index_None in E. contradiction.
Qed.

Lemma first_index_Some_elem (k : string) (l : list string) (p : nat) :
  first_index k l = Some p -> k ∈ l.
Proof.
  intros E. destruct (decide (k ∈ l)) as [H | H]; [exact H |].
  apply first_index_None in H. congruence.
Qed.

Lemma first_index_Some_lt (k : string) (l : list string) (p : nat) :
  first_index k l = Some p -> (p < length l)%nat.
Proof.
  revert p. induction l as [| x l IH]; intros p; cbn; [discriminate |].
  destruct (decide (x = k)); [intros [= <-]; lia |].
  destruct (first_index k l) as [q |]; cbn; [| discriminate].
  intros [= <-]. specialize (IH q eq_refl). lia.
Qed.

Lemma first_index_snoc (k x : string) (l : list string) :
  first_index k (l ++ [x])
  = match first_index k l with
    | Some p => Some p
    | None => if decide (x = k) then Some (length l) else None
    end.
Proof.
  induction l as [| y l IH]; cbn.
  - destruct (decide (x = k)); reflexivity.
  - destruct (decide (y = k)); [reflexivity |].
    rewrite IH. destruct (first_index k l); cbn; [reflexivity |].
    destruct (decide (x = k)); reflexivity.
Qed.

Lemma occurrences_snoc (k x : string) (l : list string) :
  occurrences k (l ++ [x]) = occurrences k l + (if decide (x = k) then 1 else 0).
Proof.
  unfold occurrences. rewrite filter_app, length_app.
  rewrite filter_cons, filter_nil. destruct (decide (x = k)); cbn; lia.
Qed.

Lemma occurrences_absent (k : string) (l : list string) : k ∉ l -> occurrences k l = 0.
Proof.
  intros Hk. unfold occurrences.
  induction l as [| x l IH]; [reflexivity |].
  apply not_elem_of_cons in Hk as [Hne Hk].
  rewrite filter_cons_False by congruence. apply IH, Hk.
Qed.

(** ** Dictionaries built by a loop over the flights *)

Section Built.
Context {V X : Type}.
Variable step : Dict V -> X -> Dict V.
Variable key : X -> string.
Hypothesis step_keys : forall d x,
  (step d x).*1 = if decide (key x ∈ d.*1) then d.*1 else d.*1 ++ [key x].

(** The keys of the dictionary are the keys met, each once, in the order in
    which they are first met. *)
Lemma built_keys (l : list X) :
  NoDup (foldl step [] l).*1
  /\ (forall k, k ∈ (foldl step [] l).*1 <-> k ∈ key <$> l)
  /\ (forall k1 k2 p1 p2,
        first_index k1 (key <$> l) = Some p1 ->
        first_index k2 (key <$> l) = Some p2 ->
        (p1 < p2)%nat ->
        before (foldl step [] l).*1 k1 k2).
Proof.
  induction l as [| x l (Hnd & Hin & Hord)] using rev_ind.
  - cbn. split; [constructor |]. split; [reflexivity | discriminate].
  - rewrite foldl_snoc, fmap_app, step_keys. cbn [fmap list_fmap].
    destruct (decide (key x ∈ (foldl step [] l).*1)) as [Hold | Hnew].
    + split; [exact Hnd |]. split.
      * intros k. rewrite Hin, elem_of_app, list_elem_of_singleton.
        split; [tauto |]. intros [H | ->]; [exact H | apply Hin, Hold].
      * intros k1 k2 p1 p2. rewrite !first_index_snoc.
        apply Hin, first_index_None_inv in Hold.
        destruct Hold as [q Hq].
        destruct (first_index k1 (key <$> l)) as [q1 |] eqn:E1;
          destruct (first_index k2 (key <$> l)) as [q2 |] eqn:E2;
          repeat case_decide; subst; try discriminate; try congruence;
          intros [= <-] [= <-] Hlt; eauto.
    + split; [apply NoDup_app; split; [exact Hnd |]; split;
              [intros k Hk ->%list_elem_of_singleton; contradiction | apply NoDup_singleton] |].
      split.
      * intros k. rewrite !elem_of_app, Hin. reflexivity.
      * intros k1 k2 p1 p2. rewrite !first_index_snoc.
        destruct (first_index k1 (key <$> l)) as [q1 |] eqn:E1;
          destruct (first_index k2 (key <$> l)) as [q2 |] eqn:E2;
          repeat case_decide; subst; try discriminate;
          intros [= <-] [= <-] Hlt.
        -- apply before_app_l. eauto.
        -- apply before_app_split; [| left].
           apply Hin. apply first_index_Some_elem in E1. exact E1.
        -- apply first_index_Some_lt in E2. rewrite length_fmap in *. lia.
        -- lia.
Qed.

End Built.

(** ** The order of [Object.entries] *)

Section Entries.
Context {V : Type}.
Implicit Types (d : Dict V) (k : string) (v : V).

Lemma indexed_snd d : (indexed d).*2 = filter (fun e => ~ array_index e.1 = None) d.
Proof.
  unfold indexed. induction d as [| e d IH]; [reflexivity |].
  cbn [omap list_omap]. rewrite filter_cons.
  destruct (array_index e.1) as [i |]; cbn.
  - rewrite decide_True by discriminate. f_equal. exact IH.
  - rewrite decide_False by (intros H; apply H; reflexivity). exact IH.
Qed.

Lemma entries_perm d : entries d ≡ₚ d.
Proof.
  unfold entries. rewrite js_sort_perm, indexed_snd.
  rewrite Permutation_app_comm. apply filter_app_complement.
Qed.

Lemma entries_NoDup d : NoDup d.*1 -> NoDup (entries d).*1.
Proof. intros H. rewrite entries_perm. exact H. Qed.

Lemma plain_keys d :
  (filter (fun e => array_index e.1 = None) d).*1
  = filter (fun k => array_index k = None) d.*1.
Proof.
  induction d as [| e d IH]; [reflexivity |].
  cbn [fmap list_fmap]. rewrite !filter_cons. cbn.
  destruct (decide (array_index e.1 = None)); cbn; rewrite IH; reflexivity.
Qed.

Lemma indexed_elem d k v (a : Z) :
  (k, v) ∈ d -> array_index k = Some a -> (a, (k, v)) ∈ indexed d.
Proof.
  intros Hin Ha. unfold indexed. apply list_elem_of_omap.
  exists (k, v). split; [exact Hin |]. cbn. rewrite Ha. reflexivity.
Qed.

Lemma indexed_sound d (a : Z) (e : string * V) :
  (a, e) ∈ indexed d -> array_index e.1 = Some a.
Proof.
  unfold indexed. intros (e' & _ & H)%list_elem_of_omap.
  destruct (array_index e'.1) as [i |] eqn:E; [| discriminate].
  cbn in H. injection H as -> ->. exact E.
Qed.

(** Two keys of a dictionary that stand in the order of the tie-break stand
    in that order among the entries. *)
Lemma entries_before d k1 v1 k2 v2 :
  (k1, v1) ∈ d -> (k2, v2) ∈ d ->
  match array_index k1, array_index k2 with
  | Some a, Some b => a < b
  | Some _, None => True
  | None, Some _ => False
  | None, None => before d.*1 k1 k2
  end ->
  before (entries d).*1 k1 k2.
Proof.
  intros H1 H2 Hord. unfold entries. rewrite fmap_app.
  set (sorted := js_sort (fun a b => a.1 - b.1) (indexed d)).
  assert (Hsorted : StronglySorted
            (outranks (fun x => - x.1) (fun x : Z * (string * V) => x) (indexed d)) sorted).
  { apply js_sort_sorted. intros x y. lia. }
  assert (Hmem : forall k v a, (k, v) ∈ d -> array_index k = Some a ->
                               (a, (k, v)) ∈ sorted).
  { intros k v a Hk Ha. unfold sorted. rewrite js_sort_perm.
    apply indexed_elem; assumption. }
  destruct (array_index k1) as [a |] eqn:E1; destruct (array_index k2) as [b |] eqn:E2.
  - apply before_app_l.
    pose proof (Hmem _ _ _ H1 E1) as M1. pose proof (Hmem _ _ _ H2 E2) as M2.
    apply list_elem_of_lookup in M1 as [p1 L1]. apply list_elem_of_lookup in M2 as [p2 L2].
    destruct (lt_eq_lt_dec p1 p2) as [[Hlt | Heq] | Hgt].
    + pose proof (lookup_before _ _ _ _ _ L1 L2 Hlt) as Hb.
      apply (before_fmap (fun x => x.2.1)) in Hb.
      rewrite <- list_fmap_compose. exact Hb.
    + subst p2. rewrite L1 in L2. injection L2 as -> _ _. lia.
    + destruct (StronglySorted_lookup _ _ _ _ _ _ Hsorted L2 L1 Hgt) as [Hw | [Hw _]];
        cbn in Hw; lia.
  - apply before_app_split.
    + apply list_elem_of_fmap. exists (k1, v1). split; [reflexivity |].
      apply list_elem_of_fmap. exists (a, (k1, v1)). split; [reflexivity |].
      apply Hmem; assumption.
    + apply list_elem_of_fmap. exists (k2, v2). split; [reflexivity |].
      apply list_elem_of_filter. split; assumption.
  - contradiction.
  - apply before_app_r. rewrite plain_keys.
    apply before_filter; assumption.
Qed.

(** The ranking [take n (sort (entries d))] by a count [cnt]: counts never
    increase, and entries of equal count keep the order of the entries. *)
Lemma ranking_order (cnt : V -> Z) d (n i j : nat) k1 v1 k2 v2 :
  NoDup d.*1 ->
  take n (js_sort (fun a b => cnt b.2 - cnt a.2) (entries d)) !! i = Some (k1, v1) ->
  take n (js_sort (fun a b => cnt b.2 - cnt a.2) (entries d)) !! j = Some (k2, v2) ->
  (k1, v1) ∈ d /\ (k2, v2) ∈ d
  /\ ((i < j)%nat -> cnt v2 <= cnt v1)
  /\ (cnt v1 = cnt v2 -> before (entries d).*1 k1 k2 -> (i < j)%nat).
Proof.
  intros Hnd [L1 _]%lookup_take_Some [L2 _]%lookup_take_Some.
  set (sorted := js_sort (fun a b => cnt b.2 - cnt a.2) (entries d)) in *.
  assert (Hsorted : StronglySorted
            (outranks (fun e => cnt e.2) (fun e : string * V => e.1) (entries d)) sorted).
  { apply js_sort_sorted. intros x y. reflexivity. }
  assert (Hin : forall e, e ∈ sorted -> e ∈ d).
  { intros e He. unfold sorted in He. rewrite js_sort_perm, entries_perm in He. exact He. }
  split; [apply Hin, list_elem_of_lookup; eauto |].
  split; [apply Hin, list_elem_of_lookup; eauto |].
  split.
  - intros Hij.
    destruct (StronglySorted_lookup _ _ _ _ _ _ Hsorted L1 L2 Hij) as [Hw | [Hw _]];
      cbn in Hw; lia.
  - intros Hc Hb. pose proof (entries_NoDup d Hnd) as Hnd'.
    destruct (lt_eq_lt_dec i j) as [[Hlt | Heq] | Hgt]; [exact Hlt | |].
    + subst j. rewrite L1 in L2. injection L2 as -> ->.
      exfalso. exact (before_irrefl _ _ Hnd' Hb).
    + destruct (StronglySorted_lookup _ _ _ _ _ _ Hsorted L2 L1 Hgt) as [Hw | [_ Hb']];
        cbn in *; [lia |].
      exfalso. exact (before_asym _ _ _ Hnd' Hb Hb').
Qed.

End Entries.

(** ** The rankings of the charts and of the top-routes panel *)

Lemma num_or_zero (a : Z) : num_or a 0 = a.
Proof. unfold num_or. destruct (Z.eqb_spec a 0); congruence. Qed.

Lemma count_step_keys (field : string) (d : Dict Z) (f : JsObj) :
  (count_step field d f).*1
  = if decide (key_of field f ∈ d.*1) then d.*1 else d.*1 ++ [key_of field f].
Proof. apply dict_set_keys. Qed.

Lemma stats_step_keys (d : Dict RouteStat) (f : JsObj) :
  (stats_step d f).*1
  = if decide (key_of "route" f ∈ d.*1) then d.*1 else d.*1 ++ [key_of "route" f].
Proof.
  unfold stats_step. set (k := key_of "route" f).
  destruct (dict_get d k) as [st |] eqn:E.
  - rewrite E, dict_set_keys. destruct (decide (k ∈ d.*1)) as [_ | Hn]; [reflexivity |].
    apply dict_get_None in Hn. congruence.
  - rewrite dict_get_set_eq, !dict_set_keys.
    apply dict_get_None in E. rewrite !(decide_False (P := k ∈ d.*1)) by exact E.
    rewrite decide_True by (apply elem_of_app; right; left). reflexivity.
Qed.

Lemma count_by_value (field : string) (flights : list JsObj) (k : string) :
  dict_get (count_by field flights) k
  = if decide (k ∈ key_of field <$> flights)
    then Some (occurrences k (key_of field <$> flights)) else None.
Proof.
  unfold count_by. revert k. induction flights as [| f l IH] using rev_ind; intros k.
  - cbn. rewrite decide_False by (intros H; inversion H). reflexivity.
  - rewrite foldl_snoc, fmap_app. cbn [fmap list_fmap]. unfold count_step at 1.
    set (d := foldl (count_step field) [] l) in *. set (kf := key_of field f).
    assert (Hdef : default 0 (dict_get d kf) = occurrences kf (key_of field <$> l)).
    { rewrite IH. destruct (decide (kf ∈ key_of field <$> l)) as [_ | Hn]; [reflexivity |].
      cbn. rewrite occurrences_absent by exact Hn. reflexivity. }
    rewrite num_or_zero, Hdef, occurrences_snoc.
    destruct (decide (k = kf)) as [-> | Hne].
    + rewrite dict_get_set_eq, decide_True by (apply elem_of_app; right; left).
      rewrite decide_True by reflexivity. reflexivity.
    + rewrite dict_get_set_ne by exact Hne. rewrite IH.
      rewrite (decide_False (P := kf = k)) by congruence. rewrite Z.add_0_r.
      destruct (decide (k ∈ key_of field <$> l)) as [Hin | Hn].
      * rewrite decide_True by (apply elem_of_app; left; exact Hin). reflexivity.
      * rewrite decide_False; [reflexivity |].
        intros [H | H%list_elem_of_singleton]%elem_of_app; [contradiction | congruence].
Qed.

Lemma route_stats_value (flights : list JsObj) (k : string) (st : RouteStat) :
  dict_get (route_stats flights) k = Some st ->
  rs_count st = occurrences k (key_of "route" <$> flights).
Proof.
  unfold route_stats.
  assert (H : forall k,
    match dict_get (foldl stats_step [] flights) k with
    | Some st => rs_count st = occurrences k (key_of "route" <$> flights)
    | None => k ∉ key_of "route" <$> flights
    end).
  { clear k st. induction flights as [| f l IH] using rev_ind; intros k.
    - cbn. intros H. inversion H.
    - rewrite foldl_snoc, fmap_app. cbn [fmap list_fmap]. unfold stats_step at 1.
      set (d := foldl stats_step [] l) in *. set (kf := key_of "route" f).
      rewrite occurrences_snoc.
      pose proof (IH kf) as Hkf.
      destruct (dict_get d kf) as [s0 |] eqn:E.
      + rewrite E.
        destruct (decide (k = kf)) as [-> | Hne].
        * rewrite dict_get_set_eq. cbn. rewrite decide_True by reflexivity. lia.
        * rewrite dict_get_set_ne by exact Hne.
          rewrite (decide_False (P := kf = k)) by congruence. rewrite Z.add_0_r.
          specialize (IH k). destruct (dict_get d k); [exact IH |].
          intros [H | H%list_elem_of_singleton]%elem_of_app; [contradiction | congruence].
      + rewrite dict_get_set_eq.
        destruct (decide (k = kf)) as [-> | Hne].
        * rewrite dict_get_set_eq. cbn. rewrite decide_True by reflexivity.
          rewrite occurrences_absent by exact Hkf. reflexivity.
        * rewrite !dict_get_set_ne by exact Hne.
          rewrite (decide_False (P := kf = k)) by congruence. rewrite Z.add_0_r.
          specialize (IH k). destruct (dict_get d k); [exact IH |].
          intros [H | H%list_elem_of_singleton]%elem_of_app; [contradiction | congruence]. }
  intros E. specialize (H k). rewrite E in H. exact H.
Qed.

(** From the order of the tie-break to the order of the entries, for a
    dictionary built by a loop over the flights. *)
Lemma tie_break_entries {V} (step : Dict V -> JsObj -> Dict V) (field : string)
    (flights : list JsObj) (k1 k2 : string) (v1 v2 : V) :
  (forall d x, (step d x).*1
               = if decide (key_of field x ∈ d.*1) then d.*1 else d.*1 ++ [key_of field x]) ->
  (k1, v1) ∈ foldl step [] flights -> (k2, v2) ∈ foldl step [] flights ->
  tie_break (key_of field <$> flights) k1 k2 ->
  before (entries (foldl step [] flights)).*1 k1 k2.
Proof.
  intros Hstep H1 H2 Htie.
  destruct (built_keys step (key_of field) Hstep flights) as (_ & _ & Hord).
  apply (entries_before _ _ v1 _ v2 H1 H2).
  unfold tie_break in Htie.
  destruct (array_index k1), (array_index k2); try exact Htie.
  destruct Htie as (p1 & p2 & E1 & E2 & Hlt). eapply Hord; eassumption.
Qed.

Lemma top_counts_ranked (field : string) (n : nat) (flights : list JsObj) :
  ranked (key_of field <$> flights) (top_counts n (count_by field flights)).
Proof.
  intros i j k1 c1 k2 c2 L1 L2. unfold top_counts in L1, L2.
  destruct (built_keys (count_step field) (key_of field) (count_step_keys field) flights)
    as (Hnd & _ & _).
  fold (count_by field flights) in Hnd.
  destruct (ranking_order (fun z => z) _ _ _ _ _ _ _ _ Hnd L1 L2) as (H1 & H2 & Hdesc & Htie).
  split.
  - pose proof (dict_get_elem _ _ _ Hnd H1) as E. rewrite count_by_value in E.
    destruct (decide (k1 ∈ key_of field <$> flights)); congruence.
  - split; [exact Hdesc |]. intros Hc Hb. apply Htie; [exact Hc |].
    eapply tie_break_entries; [apply count_step_keys | exact H1 | exact H2 | exact Hb].
Qed.

Lemma top_stats_ranked (n : nat) (flights : list JsObj) :
  ranked (key_of "route" <$> flights)
         ((fun e => (e.1, rs_count e.2)) <$> top_stats n (route_stats flights)).
Proof.
  intros i j k1 c1 k2 c2 L1 L2.
  apply list_lookup_fmap_Some in L1 as ([k1' s1] & He1 & L1).
  apply list_lookup_fmap_Some in L2 as ([k2' s2] & He2 & L2).
  cbn in He1, He2. injection He1 as -> ->. injection He2 as -> ->.
  unfold top_stats in L1, L2.
  destruct (built_keys stats_step (key_of "route") stats_step_keys flights) as (Hnd & _ & _).
  fold (route_stats flights) in Hnd.
  destruct (ranking_order rs_count _ _ _ _ _ _ _ _ Hnd L1 L2) as (H1 & H2 & Hdesc & Htie).
  split.
  - apply route_stats_value. apply dict_get_elem; assumption.
  - split; [exact Hdesc |]. intros Hc Hb. apply Htie; [exact Hc |].
    eapply tie_break_entries; [apply stats_step_keys | exact H1 | exact H2 | exact Hb].
Qed.



(** On keys none of which is an array index, the ranking is the one the
    specification words: of two keys of equal count, the one first seen
    earlier is ranked earlier. *)
Lemma ranked_first_seen (keys : list string) (ranking : list (string * Z)) :
  ranked keys ranking ->
  (forall k c, (k, c) ∈ ranking -> array_index k = None) ->
  first_seen_ranked keys ranking.
Proof.
  intros Hr Hplain i j k1 k2 c p1 p2 L1 L2 E1 E2 Hlt.
  destruct (Hr i j k1 c k2 c L1 L2) as (_ & _ & Htie).
  apply Htie; [reflexivity |]. unfold tie_break.
  rewrite (Hplain k1 c), (Hplain k2 c) by (apply list_elem_of_lookup; eauto).
  exists p1, p2. repeat split; assumption.
Qed.

Lemma all_digits_hyphen (acc : Z) (o d : string) :
  all_digits acc (o +:+ "-" +:+ d) = None.
Proof.
  revert acc. induction o as [| ch o IH]; intros acc; [reflexivity |].
  change (String ch o +:+ "-" +:+ d) with (String ch (o +:+ "-" +:+ d)).
  cbn [all_digits]. destruct (digit_of ch); [apply IH | reflexivity].
Qed.

(** A route spelled ORIGIN-DESTINATION is never an array index. *)
Lemma route_key_plain (o d : string) : array_index (o +:+ "-" +:+ d) = None.
Proof.
  unfold array_index. rewrite all_digits_hyphen.
  destruct (o +:+ "-" +:+ d); reflexivity.
Qed.

(** ** The model on concrete inputs *)

Example parseInt_select_values :
  parseInt <$> ["50"; "100"; "200"; "500"; "all"] = [Some 50; Some 100; Some 200; Some 500; None].
Proof. reflexivity. Qed.

Example array_index_values :
  array_index <$> ["0"; "12"; "012"; "4294967294"; "4294967295"; "JFK-LAX"; ""]
  = [Some 0; Some 12; None; Some 4294967294; None; None; None].
Proof. vm_compute. reflexivity. Qed.

Example route_ranking_example :
  top_counts 8 (count_by "route"
    [flight_on "ORD-LAS"; flight_on "JFK-LAX"; flight_on "DFW-DEN"; flight_on "JFK-LAX"])
  = [("JFK-LAX", 2); ("ORD-LAS", 1); ("DFW-DEN", 1)].
Proof. vm_compute. reflexivity. Qed.

Example sample_records_example :
  fmap (M := option) (fmap (M := list)
         (fun f => (fun k => ToString (prop f k))
                     <$> ["flight_number"; "airline"; "route"; "departure_time";
                          "arrival_time"; "price"; "duration"; "status"]))
    (fst (generateSampleData rnd_cycle "2026-11-01" 2 "" "" 0%nat))
  = Some [ ["SO8200"; "Southwest Airlines"; "JFK-PHX"; "12:12"; "18:48"; "280";
            "6h 18m"; "On Time"];
           ["AM5500"; "American Airlines"; "PHX-LAS"; "04:54"; "08:12"; "840";
            "4h 0m"; "Boarding"] ].
Proof. vm_compute. reflexivity. Qed.

Example statistics_example :
  statCards (updateStatistics
               (set_currentFlightData initialDashboard
                  [flight_on "JFK-LAX"; flight_on "JFK-LAX"; flight_on "ORD-LAS"]))
  = {| stat_totalFlights := 3; stat_uniqueRoutes := 2; stat_airlines := 1; stat_airports := 2 |}.
Proof. vm_compute. reflexivity. Qed.

(** * Further properties *)

(** ** More on the generator *)

Lemma literal_route (v1 v2 v3 v4 v5 v6 v7 v8 v9 v10 v11 : JsVal) :
  prop (flight_literal v1 v2 v3 v4 v5 v6 v7 v8 v9 v10 v11) "route" = v5.
Proof. reflexivity. Qed.

Lemma literal_fields (v1 v2 v3 v4 v5 v6 v7 v8 v9 v10 v11 : JsVal) :
  prop (flight_literal v1 v2 v3 v4 v5 v6 v7 v8 v9 v10 v11) "flight_number" = v1
  /\ prop (flight_literal v1 v2 v3 v4 v5 v6 v7 v8 v9 v10 v11) "airline" = v2
  /\ prop (flight_literal v1 v2 v3 v4 v5 v6 v7 v8 v9 v10 v11) "price" = v8
  /\ prop (flight_literal v1 v2 v3 v4 v5 v6 v7 v8 v9 v10 v11) "status" = v10
  /\ prop (flight_literal v1 v2 v3 v4 v5 v6 v7 v8 v9 v10 v11) "date" = v11.
Proof. repeat split. Qed.

Lemma four_digits_table :
  forallb (fun n => Nat.eqb (String.length (num_to_string n)) 4) (seqZ 1000 9000) = true.
Proof. vm_compute. reflexivity. Qed.

Lemma four_digits (n : Z) : 1000 <= n < 10000 -> String.length (num_to_string n) = 4%nat.
Proof.
  intros Hn.
  assert (Hin : In n (seqZ 1000 9000)) by (apply list_elem_of_In, elem_of_seqZ; lia).
  pose proof (proj1 (forallb_forall _ _) four_digits_table n Hin) as T.
  apply Nat.eqb_eq in T. exact T.
Qed.

Lemma string_length_app (a b : string) :
  String.length (a +:+ b) = (String.length a + String.length b)%nat.
Proof. induction a as [| ch a IH]; simpl; [reflexivity | f_equal; exact IH]. Qed.

Lemma carrier_code_member (a : string) :
  a ∈ airlines -> toUpperCase (substring0 2 (first_word a)) ∈ carrier_codes.
Proof.
  intros Ha. unfold carrier_codes. apply list_elem_of_fmap. exists a.
  split; [reflexivity | exact Ha].
Qed.

Lemma bind_bind {A B C} (m : M A) (f : A -> M B) (g : B -> M C) (c : nat) :
  bind (bind m f) g c = bind m (fun x => bind (f x) g) c.
Proof. unfold bind. destruct (m c) as [[a |] c']; reflexivity. Qed.

Section GeneratorFields.
Variable rnd : nat -> Q.
Variable todayISO : string.
Hypothesis rnd_range : forall k, (0 <= rnd k)%Q /\ (rnd k < 1)%Q.

(** One iteration, with every draw spelled out. *)
Lemma sampleFlight_explicit (origin destination : string) (c : nat) :
  let fromA := if truthy (JStr origin) then JStr origin
               else at_index airports (Qfloor (rnd c * inject_Z 16)) in
  let c1 := (c + (if truthy (JStr origin) then 0 else 1))%nat in
  let toA := if truthy (JStr destination) then JStr destination
             else at_index (airports_except fromA) (Qfloor (rnd c1 * inject_Z 15)) in
  let c2 := (c1 + (if truthy (JStr destination) then 0 else 1))%nat in
  exists f, sampleFlight rnd todayISO origin destination c = (Some f, (c2 + 9)%nat)
            /\ prop f "origin" = fromA /\ prop f "destination" = toA.
Proof.
  intros fromA c1 toA c2. subst fromA c1 toA c2. unfold sampleFlight.
  change (Z.of_nat (length airports)) with 16.
  change (Z.of_nat (length airlines)) with 8.
  change (Z.of_nat (length statuses)) with 4.
  change (16 - 1) with 15.
  assert (Hal : forall k, exists al, at_index airlines (Qfloor (rnd k * inject_Z 8)) = JStr al).
  { intros k. destruct (at_index_in_range airlines (Qfloor (rnd k * inject_Z 8)))
      as (al & Hal & _); [apply (draw_range rnd rnd_range k 8); lia | eauto]. }
  destruct (truthy (JStr origin)); destruct (truthy (JStr destination));
    rewrite ?Nat.add_0_r; replace (c + 1)%nat with (S c) by lia;
    rewrite ?bind_bind, ?bind_ret, ?bind_random_below, ?bind_ret, ?bind_bind,
            ?bind_random_below, ?bind_ret, ?bind_random_below.
  - destruct (Hal c) as [al E].
    rewrite E, bind_ret, bind_Math_random, ?bind_random_below.
    eexists. split; [unfold ret; repeat f_equal; lia |].
    rewrite literal_origin, literal_destination. split; reflexivity.
  - destruct (Hal (S c)) as [al E].
    rewrite E, bind_ret, bind_Math_random, ?bind_random_below.
    eexists. split; [unfold ret; repeat f_equal; lia |].
    rewrite literal_origin, literal_destination. split; reflexivity.
  - destruct (Hal (S c)) as [al E].
    rewrite E, bind_ret, bind_Math_random, ?bind_random_below.
    eexists. split; [unfold ret; repeat f_equal; lia |].
    rewrite literal_origin, literal_destination. split; reflexivity.
  - destruct (Hal (S (S c))) as [al E].
    rewrite E, bind_ret, bind_Math_random, ?bind_random_below.
    eexists. split; [unfold ret; repeat f_equal; lia |].
    rewrite literal_origin, literal_destination. split; reflexivity.
Qed.

Lemma sampleFlight_draws (origin destination : string) (c : nat) :
  snd (sampleFlight rnd todayISO origin destination c)
  = (c + draws_per_record origin destination)%nat.
Proof.
  destruct (sampleFlight_explicit origin destination c) as (f & Hrun & _).
  rewrite Hrun. cbn [snd]. unfold draws_per_record.
  destruct (truthy (JStr origin)), (truthy (JStr destination)); lia.
Qed.

Lemma sampleLoop_draws (n : nat) (origin destination : string) (c : nat) :
  exists flights,
    sampleLoop rnd todayISO n origin destination c
    = (Some flights, (c + n * draws_per_record origin destination)%nat)
    /\ length flights = n.
Proof.
  revert c. induction n as [| n IH]; intros c.
  - exists []. split; [cbn; unfold ret; f_equal; lia | reflexivity].
  - cbn [sampleLoop].
    destruct (sampleFlight_generated rnd todayISO rnd_range origin destination c)
      as (f & c1 & Hrun & _).
    pose proof (sampleFlight_draws origin destination c) as Hd.
    rewrite Hrun in Hd. cbn [snd] in Hd. subst c1.
    rewrite (bind_run _ _ _ _ _ Hrun).
    destruct (IH (c + draws_per_record origin destination)%nat) as (fs & Hrun2 & Hlen).
    rewrite (bind_run _ _ _ _ _ Hrun2).
    exists (f :: fs). split; [| cbn; congruence].
    unfold ret. rewrite Nat.mul_succ_l. f_equal. lia.
Qed.

(** X1. For every limit, negative ones included, [generateSampleData]
    returns [max(0, limit)] records and makes, for each record, nine calls
    of [Math.random()] plus one for each airport that is not given; for a
    limit of zero or less it returns the empty list and makes no call. *)
Theorem generateSampleData_draws (limit : Z) (origin destination : string) (c : nat) :
  exists flights,
    generateSampleData rnd todayISO limit origin destination c
    = (Some flights, (c + Z.to_nat limit * draws_per_record origin destination)%nat)
    /\ Z.of_nat (length flights) = Z.max 0 limit
    /\ (limit <= 0 ->
        generateSampleData rnd todayISO limit origin destination c = (Some [], c)).
Proof.
  unfold generateSampleData.
  destruct (sampleLoop_draws (Z.to_nat limit) origin destination c) as (flights & Hrun & Hlen).
  exists flights. split; [exact Hrun |]. split; [lia |].
  intros Hneg. replace (Z.to_nat limit) with 0%nat by lia. reflexivity.
Qed.

(** X2. A filter that is given is honoured: every record carries the given
    origin (the given destination) as it was passed, and its route is the
    origin, a hyphen and the destination. *)
Theorem generateSampleData_filters (limit : Z) (origin destination : string) (c : nat) :
  exists flights c',
    generateSampleData rnd todayISO limit origin destination c = (Some flights, c')
    /\ Forall (fun f =>
         (origin <> "" -> prop f "origin" = JStr origin)
         /\ (destination <> "" -> prop f "destination" = JStr destination)
         /\ prop f "route"
            = JStr (ToString (prop f "origin") +:+ "-" +:+ ToString (prop f "destination")))
         flights.
Proof.
  unfold generateSampleData.
  destruct (sampleLoop_generated rnd todayISO rnd_range (Z.to_nat limit) origin destination c)
    as (flights & c' & Hrun & _ & Hall).
  exists flights, c'. split; [exact Hrun |].
  eapply Forall_impl; [exact Hall |].
  intros f (al & stt & fromA & toA & n & price & dh & dm & d & m & mins & -> & Hrest).
  destruct Hrest as (_ & _ & Ho & Hd & _).
  rewrite literal_origin, literal_destination, literal_route.
  unfold truthy in Ho, Hd.
  split; [| split; [| reflexivity]].
  - intros Hne. destruct (String.eqb_spec origin ""); [contradiction | exact Ho].
  - intros Hne. destruct (String.eqb_spec destination ""); [contradiction | exact Hd].
Qed.

(** X3. Every record carries one of the eight carriers, a flight number
    made of the carrier's two-letter code and a number from 1000 to 9999
    (six characters), an integer price from 200 to 999, one of the four
    statuses and today's date. *)
Theorem generateSampleData_fields (limit : Z) (origin destination : string) (c : nat) :
  exists flights c',
    generateSampleData rnd todayISO limit origin destination c = (Some flights, c')
    /\ Forall (fun f =>
         exists airline code n price status,
           prop f "airline" = JStr airline /\ airline ∈ airlines
           /\ prop f "flight_number" = JStr (code +:+ num_to_string n)
           /\ code ∈ carrier_codes /\ 1000 <= n <= 9999
           /\ String.length (code +:+ num_to_string n) = 6%nat
           /\ prop f "price" = JNum price /\ 200 <= price <= 999
           /\ prop f "status" = JStr status /\ status ∈ statuses
           /\ prop f "date" = JStr todayISO)
         flights.
Proof.
  unfold generateSampleData.
  destruct (sampleLoop_generated rnd todayISO rnd_range (Z.to_nat limit) origin destination c)
    as (flights & c' & Hrun & _ & Hall).
  exists flights, c'. split; [exact Hrun |].
  eapply Forall_impl; [exact Hall |].
  intros f (al & stt & fromA & toA & n & price & dh & dm & d & m & mins & -> & Hrest).
  destruct Hrest as (Hal & Hstt & _ & _ & Hn & Hp & _).
  destruct (literal_fields
    (JStr (toUpperCase (substring0 2 (first_word al)) +:+ num_to_string n))
    (JStr al) fromA toA (JStr (ToString fromA +:+ "-" +:+ ToString toA))
    (JStr (clock dh dm)) (JStr (clock ((dh + d) mod 24) ((dm + m) mod 60)))
    (JNum price) (JStr (num_to_string d +:+ "h " +:+ num_to_string mins +:+ "m"))
    (JStr stt) (JStr todayISO)) as (E1 & E2 & E3 & E4 & E5).
  exists al, (toUpperCase (substring0 2 (first_word al))), n, price, stt.
  pose proof (carrier_code_member al Hal) as Hcode.
  repeat split; try assumption; try lia.
  rewrite string_length_app, four_digits by lia.
  clear -Hcode. unfold carrier_codes in Hcode.
  apply list_elem_of_fmap in Hcode as (a & -> & Ha).
  repeat (apply elem_of_cons in Ha as [-> | Ha]; [reflexivity |]).
  inversion Ha.
Qed.

(** X4. The two clock fields of every record read back as a time of day:
    five characters HH:MM with an hour below 24 and a minute below 60. *)
Theorem generateSampleData_clock_fields (limit : Z) (origin destination : string) (c : nat) :
  exists flights c',
    generateSampleData rnd todayISO limit origin destination c = (Some flights, c')
    /\ Forall (fun f =>
         exists dep arr dh dm ah am,
           prop f "departure_time" = JStr dep /\ prop f "arrival_time" = JStr arr
           /\ parse_clock dep = Some (dh, dm) /\ parse_clock arr = Some (ah, am)
           /\ 0 <= dh < 24 /\ 0 <= dm < 60 /\ 0 <= ah < 24 /\ 0 <= am < 60)
         flights.
Proof.
  unfold generateSampleData.
  destruct (sampleLoop_generated rnd todayISO rnd_range (Z.to_nat limit) origin destination c)
    as (flights & c' & Hrun & _ & Hall).
  exists flights, c'. split; [exact Hrun |].
  eapply Forall_impl; [exact Hall |].
  intros f (al & stt & fromA & toA & n & price & dh & dm & d & m & mins & -> & Hrest).
  destruct Hrest as (_ & _ & _ & _ & _ & _ & Hdh & Hdm & Hd & Hm & _).
  rewrite literal_departure_time, literal_arrival_time.
  pose proof (Z.mod_pos_bound (dh + d) 24 ltac:(lia)) as Hah.
  pose proof (Z.mod_pos_bound (dm + m) 60 ltac:(lia)) as Ham.
  eexists _, _, dh, dm, ((dh + d) mod 24), ((dm + m) mod 60).
  split; [reflexivity |]. split; [reflexivity |].
  rewrite !clock_roundtrip by assumption.
  repeat split; lia.
Qed.

(** X5. When only the destination is given, the origin is drawn from all
    sixteen airports: if the draw picks the airport given as destination,
    the record flies from that airport to itself. *)
Theorem generateSampleData_same_airport (destination : string) (c : nat) :
  destination <> "" ->
  at_index airports (Qfloor (rnd c * inject_Z 16)) = JStr destination ->
  exists f c',
    generateSampleData rnd todayISO 1 "" destination c = (Some [f], c')
    /\ prop f "origin" = JStr destination
    /\ prop f "destination" = JStr destination.
Proof.
  intros Hne Hdraw. unfold generateSampleData.
  change (Z.to_nat 1) with 1%nat. cbn [sampleLoop].
  destruct (sampleFlight_explicit "" destination c) as (f & Hrun & Ho & Hd).
  rewrite (bind_run _ _ _ _ _ Hrun), bind_ret.
  exists f. eexists. split; [reflexivity |].
  rewrite Ho, Hd. unfold truthy.
  destruct (String.eqb_spec destination ""); [contradiction |].
  cbn. split; [exact Hdraw | reflexivity].
Qed.

End GeneratorFields.

(** Five records without filters drawn from [rnd_cycle]: 55 calls. *)
Lemma generateSampleData_draws_witness :
  (forall k, (0 <= rnd_cycle k)%Q /\ (rnd_cycle k < 1)%Q)
  /\ exists flights,
       generateSampleData rnd_cycle "2026-11-01" 5 "" "" 0%nat
       = (Some flights, (0 + Z.to_nat 5 * draws_per_record "" "")%nat)
       /\ Z.of_nat (length flights) = Z.max 0 5
       /\ (5 <= 0 ->
           generateSampleData rnd_cycle "2026-11-01" 5 "" "" 0%nat = (Some [], 0%nat)).
Proof.
  assert (H : forall k, (0 <= rnd_cycle k)%Q /\ (rnd_cycle k < 1)%Q).
  { intros k. unfold rnd_cycle, Qle, Qlt. simpl. lia. }
  split; [exact H |].
  apply (generateSampleData_draws rnd_cycle "2026-11-01" H 5 "" "" 0%nat).
Defined.

(** Three records from ORD to any airport drawn from [rnd_cycle]. *)
Lemma generateSampleData_filters_witness :
  (forall k, (0 <= rnd_cycle k)%Q /\ (rnd_cycle k < 1)%Q)
  /\ exists flights c',
       generateSampleData rnd_cycle "2026-11-01" 3 "ORD" "" 0%nat = (Some flights, c')
       /\ Forall (fun f =>
            ("ORD" <> "" -> prop f "origin" = JStr "ORD")
            /\ ("" <> "" -> prop f "destination" = JStr "")
            /\ prop f "route"
               = JStr (ToString (prop f "origin") +:+ "-" +:+ ToString (prop f "destination")))
            flights.
Proof.
  assert (H : forall k, (0 <= rnd_cycle k)%Q /\ (rnd_cycle k < 1)%Q).
  { intros k. unfold rnd_cycle, Qle, Qlt. simpl. lia. }
  split; [exact H |].
  apply (generateSampleData_filters rnd_cycle "2026-11-01" H 3 "ORD" "" 0%nat).
Defined.

(** Three records drawn from [rnd_cycle]. *)
Lemma generateSampleData_fields_witness :
  (forall k, (0 <= rnd_cycle k)%Q /\ (rnd_cycle k < 1)%Q)
  /\ exists flights c',
       generateSampleData rnd_cycle "2026-11-01" 3 "" "" 0%nat = (Some flights, c')
       /\ Forall (fun f =>
            exists airline code n price status,
              prop f "airline" = JStr airline /\ airline ∈ airlines
              /\ prop f "flight_number" = JStr (code +:+ num_to_string n)
              /\ code ∈ carrier_codes /\ 1000 <= n <= 9999
              /\ String.length (code +:+ num_to_string n) = 6%nat
              /\ prop f "price" = JNum price /\ 200 <= price <= 999
              /\ prop f "status" = JStr status /\ status ∈ statuses
              /\ prop f "date" = JStr "2026-11-01")
            flights.
Proof.
  assert (H : forall k, (0 <= rnd_cycle k)%Q /\ (rnd_cycle k < 1)%Q).
  { intros k. unfold rnd_cycle, Qle, Qlt. simpl. lia. }
  split; [exact H |].
  apply (generateSampleData_fields rnd_cycle "2026-11-01" H 3 "" "" 0%nat).
Defined.

(** Three records drawn from [rnd_cycle]. *)
Lemma generateSampleData_clock_fields_witness :
  (forall k, (0 <= rnd_cycle k)%Q /\ (rnd_cycle k < 1)%Q)
  /\ exists flights c',
       generateSampleData rnd_cycle "2026-11-01" 3 "" "" 0%nat = (Some flights, c')
       /\ Forall (fun f =>
            exists dep arr dh dm ah am,
              prop f "departure_time" = JStr dep /\ prop f "arrival_time" = JStr arr
              /\ parse_clock dep = Some (dh, dm) /\ parse_clock arr = Some (ah, am)
              /\ 0 <= dh < 24 /\ 0 <= dm < 60 /\ 0 <= ah < 24 /\ 0 <= am < 60)
            flights.
Proof.
  assert (H : forall k, (0 <= rnd_cycle k)%Q /\ (rnd_cycle k < 1)%Q).
  { intros k. unfold rnd_cycle, Qle, Qlt. simpl. lia. }
  split; [exact H |].
  apply (generateSampleData_clock_fields rnd_cycle "2026-11-01" H 3 "" "" 0%nat).
Defined.

(** The first draw of [rnd_cycle] is 0 and picks JFK: with JFK as the
    destination the record flies from JFK to JFK. *)
Lemma generateSampleData_same_airport_witness :
  (forall k, (0 <= rnd_cycle k)%Q /\ (rnd_cycle k < 1)%Q)
  /\ "JFK" <> ""
  /\ at_index airports (Qfloor (rnd_cycle 0 * inject_Z 16)) = JStr "JFK"
  /\ exists f c',
       generateSampleData rnd_cycle "2026-11-01" 1 "" "JFK" 0%nat = (Some [f], c')
       /\ prop f "origin" = JStr "JFK"
       /\ prop f "destination" = JStr "JFK".
Proof.
  assert (H : forall k, (0 <= rnd_cycle k)%Q /\ (rnd_cycle k < 1)%Q).
  { intros k. unfold rnd_cycle, Qle, Qlt. simpl. lia. }
  split; [exact H |]. split; [discriminate |]. split; [reflexivity |].
  apply (generateSampleData_same_airport rnd_cycle "2026-11-01" H "JFK" 0%nat);
    [discriminate | reflexivity].
Defined.

(** ** More on the price trend *)

Lemma Math_round_upper (x : R) (n : Z) : (x <= IZR n)%R -> Math_round x <= n.
Proof.
  intros Hx. unfold Math_round.
  destruct (base_Int_part (x + / 2)) as [Hle _].
  assert (H : (IZR (Int_part (x + / 2)) < IZR (n + 1))%R).
  { rewrite plus_IZR. Lra.lra. }
  apply lt_IZR in H. lia.
Qed.

Section PriceTrendRange.
Variable rnd : nat -> Q.
Variable dayLabel : nat -> string.
Hypothesis rnd_range : forall k, (0 <= rnd k)%Q /\ (rnd k < 1)%Q.

Lemma trend_sum_range (i k : nat) :
  (350 <= basePrice + (Q2R (rnd k) - 5 / 10) * 100 + sin (INR i * (1 / 10)) * 50 <= 550)%R.
Proof.
  pose proof (variation_range rnd rnd_range k) as Hv.
  pose proof (SIN_bound (INR i * (1 / 10))) as Hs.
  unfold basePrice. Lra.lra.
Qed.

Lemma trendPrice_unfloored (i k : nat) :
  trendPrice i (rnd k)
  = Math_round (450 + (Q2R (rnd k) - 5 / 10) * 100 + sin (INR i * (1 / 10)) * 50)
  /\ 350 <= trendPrice i (rnd k) <= 550.
Proof.
  pose proof (trend_sum_range i k) as [Hlo Hhi]. unfold trendPrice.
  rewrite Rmax_right by Lra.lra. unfold basePrice in *.
  split; [reflexivity |].
  split; [apply Math_round_lower | apply Math_round_upper]; assumption.
Qed.


End PriceTrendRange.


(** ** More on the statistic cards, the table and the empty dashboard *)

Lemma remove_dups_length_le (l : list JsVal) : (length (remove_dups l) <= length l)%nat.
Proof.
  induction l as [| x l IH]; [reflexivity |].
  cbn. destruct (decide_rel elem_of x l); cbn; lia.
Qed.

Lemma remove_dups_cons_pos (x : JsVal) (l : list JsVal) :
  (1 <= length (remove_dups (x :: l)))%nat.
Proof.
  destruct (remove_dups (x :: l)) as [| y r] eqn:E; [| cbn; lia].
  assert (H : x ∈ remove_dups (x :: l)) by (apply elem_of_remove_dups; left).
  rewrite E in H. inversion H.
Qed.

(** X7. On a collection that is not empty the cards show the number of
    flights, between one and that many routes and airlines, and between one
    and twice that many airports. *)
Theorem updateStatistics_bounds (st : Dashboard) :
  currentFlightData st <> [] ->
  let n := Z.of_nat (length (currentFlightData st)) in
  let shown := statCards (updateStatistics st) in
  stat_totalFlights shown = n
  /\ 1 <= stat_uniqueRoutes shown <= n
  /\ 1 <= stat_airlines shown <= n
  /\ 1 <= stat_airports shown <= 2 * n.
Proof.
  intros Hne n shown. subst n shown. unfold updateStatistics.
  destruct st as [i1 i2 i3 fl sc rc ac pc ft tr lo ef].
  cbn [statCards set_statCards currentFlightData stat_totalFlights stat_uniqueRoutes
       stat_airlines stat_airports dashboardStats] in *.
  destruct fl as [| f fl]; [congruence |].
  cbn [fmap list_fmap mbind list_bind app].
  pose proof (remove_dups_cons_pos (prop f "route") ((fun f => prop f "route") <$> fl)) as R1.
  pose proof (remove_dups_length_le (prop f "route" :: ((fun f => prop f "route") <$> fl))) as R2.
  pose proof (remove_dups_cons_pos (prop f "airline") ((fun f => prop f "airline") <$> fl)) as A1.
  pose proof (remove_dups_length_le (prop f "airline" :: ((fun f => prop f "airline") <$> fl)))
    as A2.
  pose proof (remove_dups_cons_pos (prop f "origin")
                (prop f "destination" :: (fl ≫= (fun f => [prop f "origin"; prop f "destination"]))))
    as P1.
  pose proof (remove_dups_length_le
                (prop f "origin" :: prop f "destination"
                 :: (fl ≫= (fun f => [prop f "origin"; prop f "destination"])))) as P2.
  assert (Hbind : length (fl ≫= (fun f => [prop f "origin"; prop f "destination"]))
                  = (2 * length fl)%nat).
  { clear. induction fl as [| g fl IH]; [reflexivity |]. cbn. rewrite IH. lia. }
  cbn [length] in *. rewrite length_fmap in *. rewrite Hbind in P2.
  unfold num_or.
  repeat match goal with
  | |- context [Z.eqb ?a 0] => destruct (Z.eqb_spec a 0); [lia |]
  end.
  lia.
Qed.

Lemma updateStatistics_bounds_witness :
  currentFlightData (set_currentFlightData initialDashboard
                       [flight_on "JFK-LAX"; flight_on "ORD-LAS"]) <> []
  /\ let st := set_currentFlightData initialDashboard
                 [flight_on "JFK-LAX"; flight_on "ORD-LAS"] in
     let n := Z.of_nat (length (currentFlightData st)) in
     let shown := statCards (updateStatistics st) in
     stat_totalFlights shown = n
     /\ 1 <= stat_uniqueRoutes shown <= n
     /\ 1 <= stat_airlines shown <= n
     /\ 1 <= stat_airports shown <= 2 * n.
Proof.
  split; [discriminate |].
  apply (updateStatistics_bounds
           (set_currentFlightData initialDashboard [flight_on "JFK-LAX"; flight_on "ORD-LAS"])).
  discriminate.
Defined.

(** X8. The table shows the placeholder row exactly when the collection is
    empty; otherwise it shows one row per flight for the first 20 flights,
    in their order, and never more than 20 rows. The collection itself is
    left whole. *)
Theorem updateFlightTable_first_twenty (st : Dashboard) :
  currentFlightData (updateFlightTable st) = currentFlightData st
  /\ (flightTable (updateFlightTable st) = NoData <-> currentFlightData st = [])
  /\ forall rows, flightTable (updateFlightTable st) = Rows rows ->
       length rows = Nat.min 20 (length (currentFlightData st))
       /\ forall i, (i < 20)%nat -> rows !! i = table_row <$> currentFlightData st !! i.
Proof.
  unfold updateFlightTable, slice0. change (Z.ltb 20 0) with false. cbv iota.
  change (Z.to_nat 20) with 20%nat.
  destruct (currentFlightData st) as [| f fl] eqn:E.
  - cbn. rewrite E. split; [reflexivity |]. split; [tauto |]. discriminate.
  - change (take 20 (f :: fl)) with (f :: take 19 fl). cbn [length Nat.eqb].
    cbn [set_flightTable flightTable currentFlightData]. rewrite E.
    split; [reflexivity |]. split; [split; discriminate |].
    intros rows [= <-]. split.
    + change (table_row f :: list_fmap JsObj TableRow table_row (take 19 fl))
        with (table_row <$> take 20 (f :: fl)).
      rewrite length_fmap, length_take. cbn [length]. lia.
    + intros i Hi.
      change (table_row f :: list_fmap JsObj TableRow table_row (take 19 fl))
        with (table_row <$> take 20 (f :: fl)).
      rewrite list_lookup_fmap, lookup_take_lt by exact Hi. reflexivity.
Qed.

Section EmptyDashboard.
Variable rnd : nat -> Q.
Variable dayLabel : nat -> string.

(** X9. On an empty collection [updateDashboard] shows the defaults 300,
    10, 10, 10 on the cards, the eight sample routes and six sample
    airlines in the charts, the placeholder row in the table and the three
    placeholder routes in the panel; the price chart still gets its 31
    points. *)
Theorem updateDashboard_empty (st : Dashboard) (c : nat) :
  currentFlightData st = [] ->
  exists st',
    updateDashboard rnd dayLabel st c = (Some st', (c + 31)%nat)
    /\ statCards st' = dashboardStats
    /\ routeChart st' = sample_route_chart
    /\ airlineChart st' = sample_airline_chart
    /\ Some (priceChart st') = fst (generatePriceTrend rnd dayLabel c)
    /\ length (data (priceChart st')) = 31%nat
    /\ flightTable st' = NoData
    /\ topRoutes st' = placeholder_routes.
Proof.
  intros Hempty.
  destruct (generatePriceTrend_series_total rnd dayLabel c) as (chart & Hchart & Hlen).
  unfold updateDashboard, updateCharts, updateChartsWithSampleData.
  destruct st as [i1 i2 i3 fl sc rc ac pc ft tr lo ef]. cbn in Hempty. subst fl.
  cbn [currentFlightData updateStatistics set_statCards length Nat.eqb].
  unfold bind. rewrite Hchart. unfold ret.
  eexists. split; [reflexivity |]. repeat split. exact Hlen.
Qed.

End EmptyDashboard.

Lemma updateDashboard_empty_witness :
  currentFlightData initialDashboard = []
  /\ exists st',
       updateDashboard rnd_cycle offset_label initialDashboard 0%nat = (Some st', (0 + 31)%nat)
       /\ statCards st' = dashboardStats
       /\ routeChart st' = sample_route_chart
       /\ airlineChart st' = sample_airline_chart
       /\ Some (priceChart st') = fst (generatePriceTrend rnd_cycle offset_label 0%nat)
       /\ length (data (priceChart st')) = 31%nat
       /\ flightTable st' = NoData
       /\ topRoutes st' = placeholder_routes.
Proof.
  split; [reflexivity |].
  apply (updateDashboard_empty rnd_cycle offset_label initialDashboard 0%nat). reflexivity.
Defined.



(** ** More on loading *)

Lemma searchParams_origin (fromAirport toAirport : string) :
  fromAirport <> "" ->
  prop (searchParams fromAirport toAirport) "origin" = JStr (toUpperCase fromAirport).
Proof.
  intros Hf. unfold searchParams, truthy, prop.
  destruct (String.eqb_spec fromAirport ""); [contradiction |].
  destruct (String.eqb_spec toAirport ""); cbn [negb].
  - rewrite lookup_insert_eq. reflexivity.
  - rewrite lookup_insert_ne by discriminate. rewrite lookup_insert_eq. reflexivity.
Qed.

Lemma searchParams_destination (fromAirport toAirport : string) :
  toAirport <> "" ->
  prop (searchParams fromAirport toAirport) "destination" = JStr (toUpperCase toAirport).
Proof.
  intros Ht. unfold searchParams, truthy, prop.
  destruct (String.eqb_spec toAirport ""); [contradiction |]. cbn [negb].
  rewrite lookup_insert_eq. reflexivity.
Qed.

Lemma generated_filters (origin destination today : string) (f : JsObj) :
  generated origin destination today f ->
  (origin <> "" -> prop f "origin" = JStr origin)
  /\ (destination <> "" -> prop f "destination" = JStr destination)
  /\ (origin = "" -> destination = "" -> prop f "origin" <> prop f "destination").
Proof.
  intros (al & stt & fromA & toA & n & price & dh & dm & d & m & mins & -> & Hrest).
  destruct Hrest as (_ & _ & Ho & Hd & _).
  rewrite literal_origin, literal_destination. unfold truthy in Ho, Hd.
  split; [| split].
  - intros Hne. destruct (String.eqb_spec origin ""); [contradiction | exact Ho].
  - intros Hne. destruct (String.eqb_spec destination ""); [contradiction | exact Hd].
  - intros -> ->. cbn in Ho, Hd. destruct Hd as (b & _ & _ & Hne). congruence.
Qed.

Lemma generated_badge (origin destination today : string) (f : JsObj) :
  generated origin destination today f ->
  row_badge (table_row f) ∈ ["badge-success"; "badge-warning"; "badge-info"]
  /\ row_status (table_row f) ∈ statuses.
Proof.
  intros (al & stt & fromA & toA & n & price & dh & dm & d & m & mins & -> & Hrest).
  destruct Hrest as (_ & Hstt & _).
  unfold table_row. cbn [row_badge row_status].
  destruct (literal_fields
    (JStr (toUpperCase (substring0 2 (first_word al)) +:+ num_to_string n))
    (JStr al) fromA toA (JStr (ToString fromA +:+ "-" +:+ ToString toA))
    (JStr (clock dh dm)) (JStr (clock ((dh + d) mod 24) ((dm + m) mod 60)))
    (JNum price) (JStr (num_to_string d +:+ "h " +:+ num_to_string mins +:+ "m"))
    (JStr stt) (JStr today)) as (_ & _ & _ & E & _).
  rewrite E. cbn [ToString]. split; [| exact Hstt].
  unfold statuses in Hstt.
  repeat (apply elem_of_cons in Hstt as [-> | Hstt];
          [cbn; repeat ((left; fail) || right); left |]).
  inversion Hstt.
Qed.

Section LoadingMore.
Variable rnd : nat -> Q.
Variable todayISO : string.
Variable dayLabel : nat -> string.
Hypothesis rnd_range : forall k, (0 <= rnd k)%Q /\ (rnd k < 1)%Q.

(** X11. Every generated record gets one of the badges success, warning
    or info in the table, never the fallback badge, and its status cell
    shows one of the four statuses. *)
Theorem generateSampleData_badges (limit : Z) (origin destination : string) (c : nat) :
  exists flights c',
    generateSampleData rnd todayISO limit origin destination c = (Some flights, c')
    /\ Forall (fun f =>
         row_badge (table_row f) ∈ ["badge-success"; "badge-warning"; "badge-info"]
         /\ row_badge (table_row f) <> "badge-secondary"
         /\ row_status (table_row f) ∈ statuses) flights.
Proof.
  unfold generateSampleData.
  destruct (sampleLoop_generated rnd todayISO rnd_range (Z.to_nat limit) origin destination c)
    as (flights & c' & Hrun & _ & Hall).
  exists flights, c'. split; [exact Hrun |].
  eapply Forall_impl; [exact Hall |].
  intros f Hf. destruct (generated_badge _ _ _ _ Hf) as [Hb Hs].
  split; [exact Hb |]. split; [| exact Hs].
  intros E. rewrite E in Hb.
  repeat (apply elem_of_cons in Hb as [Hb | Hb]; [discriminate |]). inversion Hb.
Qed.

(** X12. When the endpoint gives no usable answer (the request is rejected,
    the status is not 2xx, or the body cannot be read), [loadFilteredData]
    stores exactly [limit] generated records. The search request carries
    the airport codes in upper case, but the records carry them as they
    were typed. *)
Theorem loadFilteredData_fallback_as_typed
    (net : JsObj -> FetchResult) (st : Dashboard) (c : nat) (limit : Z) :
  parseInt (input_dataLimit st) = Some limit -> 0 <= limit ->
  input_fromAirport st <> "" -> input_toAirport st <> "" ->
  (forall a, net (searchParams (input_fromAirport st) (input_toAirport st))
             <> FetchResponse true (BodyData a)) ->
  prop (searchParams (input_fromAirport st) (input_toAirport st)) "origin"
  = JStr (toUpperCase (input_fromAirport st))
  /\ prop (searchParams (input_fromAirport st) (input_toAirport st)) "destination"
     = JStr (toUpperCase (input_toAirport st))
  /\ exists st' c',
       loadFilteredData rnd todayISO dayLabel net st c = (Some st', c')
       /\ Z.of_nat (length (currentFlightData st')) = limit
       /\ Forall (fun f => prop f "origin" = JStr (input_fromAirport st)
                           /\ prop f "destination" = JStr (input_toAirport st))
                 (currentFlightData st').
Proof.
  intros Hlimit Hpos Hfrom Hto Hnet.
  split; [apply searchParams_origin, Hfrom |].
  split; [apply searchParams_destination, Hto |].
  destruct (loadFilteredData_run rnd todayISO dayLabel rnd_range net st c)
    as (st' & c' & c0 & Hrun & _ & _ & _ & _ & _ & Hcase).
  exists st', c'. split; [exact Hrun |].
  rewrite Hlimit in Hcase.
  assert (Hgen : generateSampleDataN rnd todayISO (Some limit)
                   (input_fromAirport st) (input_toAirport st) c
                 = (Some (currentFlightData st'), c0)).
  { destruct (net _) as [| [|] [| a]]; try apply Hcase.
    exfalso. exact (Hnet a eq_refl). }
  destruct (generateSampleDataN_run rnd todayISO rnd_range (Some limit)
              (input_fromAirport st) (input_toAirport st) c)
    as (fl & c1 & Hgen' & Hlen & Hall).
  rewrite Hgen in Hgen'. injection Hgen' as <- _.
  split; [lia |].
  eapply Forall_impl; [exact Hall |].
  intros f Hf. destruct (generated_filters _ _ _ _ Hf) as (Ho & Hd & _).
  split; [apply Ho, Hfrom | apply Hd, Hto].
Qed.


Lemma render_empty (c : nat) :
  exists chart,
    generatePriceTrend rnd dayLabel c = (Some chart, (c + 31)%nat)
    /\ render rnd dayLabel [] c
       = Some (dashboardStats, sample_route_chart, sample_airline_chart, chart,
               NoData, placeholder_routes).
Proof.
  destruct (generatePriceTrend_total rnd dayLabel c) as [chart Hchart].
  exists chart. split; [exact Hchart |].
  unfold render, updateDashboard, updateCharts, updateChartsWithSampleData.
  cbn [currentFlightData updateStatistics set_statCards set_currentFlightData
       initialDashboard length Nat.eqb].
  unfold bind. rewrite Hchart. reflexivity.
Qed.

(** [loadSampleData]: 50 generated records, rendered. *)
Lemma loadSampleData_run (st : Dashboard) (c : nat) :
  exists st' flights,
    loadSampleData rnd todayISO dayLabel st c = (Some st', (c + 50 * 11 + 31)%nat)
    /\ currentFlightData st' = flights
    /\ length flights = 50%nat
    /\ Forall (generated "" "" todayISO) flights
    /\ statCards st' = statCards (updateStatistics (set_currentFlightData st flights))
    /\ Some (views st') = render rnd dayLabel flights (c + 50 * 11)%nat
    /\ input_fromAirport st' = input_fromAirport st
    /\ input_toAirport st' = input_toAirport st
    /\ input_dataLimit st' = input_dataLimit st
    /\ loadingOverlay st' = loadingOverlay st
    /\ effects st' = effects st.
Proof.
  unfold loadSampleData, generateSampleData.
  destruct (sampleLoop_draws rnd todayISO rnd_range (Z.to_nat 50) "" "" c)
    as (flights & Hgen & Hlen).
  destruct (sampleLoop_generated rnd todayISO rnd_range (Z.to_nat 50) "" "" c)
    as (fl' & c' & Hgen' & _ & Hall).
  rewrite Hgen in Hgen'. injection Hgen' as <- _.
  change (Z.to_nat 50 * draws_per_record "" "")%nat with (50 * 11)%nat in Hgen.
  rewrite (bind_run _ _ _ _ _ Hgen).
  destruct (updateDashboard_run rnd dayLabel (set_currentFlightData st flights) (c + 50 * 11)%nat)
    as (st1 & Hrun & H1 & H2 & H3 & H4 & H5 & H6 & H7 & H8).
  exists st1, flights. split; [exact Hrun |].
  repeat split; assumption.
Qed.

Lemma total_card (st : Dashboard) :
  currentFlightData st <> [] ->
  stat_totalFlights (statCards (updateStatistics st))
  = Z.of_nat (length (currentFlightData st)).
Proof.
  intros Hne. unfold updateStatistics.
  cbn [statCards set_statCards stat_totalFlights]. unfold num_or.
  destruct (Z.eqb_spec (Z.of_nat (length (currentFlightData st))) 0) as [E | _];
    [| reflexivity].
  destruct (currentFlightData st); [congruence | cbn in E; lia].
Qed.

(** X14. After the page load the collection is never empty, whatever the
    endpoint answers: it holds the non-empty list of a 2xx answer, or else
    the 50 sample records. The total card shows its size, and an export
    right after the page load offers a download and raises no alert. *)
Theorem pageLoad_collection_not_empty
    (net : JsObj -> FetchResult) (st : Dashboard) (c : nat) :
  exists st' c',
    pageLoad rnd todayISO dayLabel net st c = (Some st', c')
    /\ currentFlightData st' <> []
    /\ ((exists f fs, net (initial_request todayISO)
                      = FetchResponse true (BodyData (Some (f :: fs)))
                      /\ currentFlightData st' = f :: fs)
        \/ (length (currentFlightData st') = 50%nat
            /\ Forall (generated "" "" todayISO) (currentFlightData st')))
    /\ stat_totalFlights (statCards st') = Z.of_nat (length (currentFlightData st'))
    /\ effects (exportData st')
       = effects st' ++ [Download "airline_data.csv" (convertToCSV (currentFlightData st'))].
Proof.
  unfold pageLoad, initializeDashboard.
  destruct (loadSampleData_run (updateStatistics (initializeCharts st)) c)
    as (st1 & flights & Hrun1 & Hfl & Hlen & Hall & Hstat & _).
  rewrite (bind_run _ _ _ _ _ Hrun1).
  destruct (loadInitialData_run rnd todayISO dayLabel net st1 (c + 50 * 11 + 31)%nat)
    as (st2 & c2 & Hrun2 & Hcase).
  exists st2, c2. split; [exact Hrun2 |].
  subst flights.
  assert (Hs1 : currentFlightData st1 <> []).
  { destruct (currentFlightData st1); discriminate. }
  assert (Hs2 : stat_totalFlights (statCards st1)
                = Z.of_nat (length (currentFlightData st1))).
  { rewrite Hstat, total_card; cbn [set_currentFlightData currentFlightData];
      [reflexivity | exact Hs1]. }
  assert (Hexport : forall s, currentFlightData s <> [] ->
            effects (exportData s)
            = effects s ++ [Download "airline_data.csv" (convertToCSV (currentFlightData s))]).
  { intros s Hs. unfold exportData. destruct (currentFlightData s); [congruence |].
    reflexivity. }
  destruct (net (initial_request todayISO)) as [| [|] [| [[| f fs] |]]];
    lazymatch type of Hcase with
    | _ /\ _ /\ _ /\ _ => idtac
    | _ => destruct Hcase as [-> _]
    end.
  1-3, 5-9: (split; [exact Hs1 |]; split; [right; split; [exact Hlen | exact Hall] |];
    split; [exact Hs2 | apply Hexport; exact Hs1]).
  destruct Hcase as (_ & Hfl2 & _ & Hstat2 & _).
  assert (Hne : currentFlightData st2 <> []) by (rewrite Hfl2; discriminate).
  split; [exact Hne |]. split; [left; eauto |].
  split; [| apply Hexport, Hne].
  rewrite Hstat2, total_card; cbn [set_currentFlightData currentFlightData];
    [rewrite Hfl2; reflexivity | discriminate].
Qed.

(** X15. [clearFilters] empties the two airport inputs, puts the limit back
    to 50 and replaces the collection by 50 freshly generated records, none
    of which flies from an airport to itself; the total card shows 50. It
    makes 581 calls of [Math.random()] and touches neither the overlay nor
    the effects. *)
Theorem clearFilters_reset (st : Dashboard) (c : nat) :
  exists st',
    clearFilters rnd todayISO dayLabel st c = (Some st', (c + 581)%nat)
    /\ input_fromAirport st' = "" /\ input_toAirport st' = ""
    /\ input_dataLimit st' = "50"
    /\ length (currentFlightData st') = 50%nat
    /\ Forall (fun f => prop f "origin" <> prop f "destination") (currentFlightData st')
    /\ stat_totalFlights (statCards st') = 50
    /\ loadingOverlay st' = loadingOverlay st
    /\ effects st' = effects st.
Proof.
  unfold clearFilters.
  destruct (loadSampleData_run (set_inputs st "" "" "50") c)
    as (st1 & flights & Hrun & Hfl & Hlen & Hall & Hstat & _ & H1 & H2 & H3 & H4 & H5).
  exists st1. split; [rewrite Hrun; f_equal; lia |].
  rewrite H1, H2, H3, H4, H5, Hfl, Hstat.
  repeat split; try assumption.
  - eapply Forall_impl; [exact Hall |]. intros f Hf.
    destruct (generated_filters _ _ _ _ Hf) as (_ & _ & Hne). apply Hne; reflexivity.
  - rewrite total_card; cbn [set_currentFlightData currentFlightData];
      [rewrite Hlen; reflexivity | destruct flights; discriminate].
Qed.

(** X16. A 2xx answer whose [flights] list is absent or empty is no reason
    to fall back on sample data: [loadFilteredData] empties the collection,
    the dashboard shows the defaults, sample series and placeholders of the
    empty state, and an export that follows raises the alert. *)
Theorem loadFilteredData_empty_answer
    (net : JsObj -> FetchResult) (st : Dashboard) (c : nat) (a : option (list JsObj)) :
  net (searchParams (input_fromAirport st) (input_toAirport st))
  = FetchResponse true (BodyData a) ->
  a = None \/ a = Some [] ->
  exists st',
    loadFilteredData rnd todayISO dayLabel net st c = (Some st', (c + 31)%nat)
    /\ currentFlightData st' = []
    /\ statCards st' = dashboardStats
    /\ routeChart st' = sample_route_chart
    /\ airlineChart st' = sample_airline_chart
    /\ flightTable st' = NoData
    /\ topRoutes st' = placeholder_routes
    /\ effects (exportData st')
       = effects st ++ [Alert "No data to export. Please load some flight data first."].
Proof.
  intros Hnet Ha.
  unfold loadFilteredData, try_catch. rewrite Hnet.
  assert (Hfl : match a with
                | Some l => slice0 l (parseInt (input_dataLimit st))
                | None => []
                end = []).
  { destruct Ha as [-> | ->]; [reflexivity |].
    unfold slice0. destruct (parseInt (input_dataLimit st)) as [n |]; [| reflexivity].
    destruct (Z.ltb n 0); apply take_nil. }
  rewrite Hfl.
  destruct (updateDashboard_run rnd dayLabel (set_currentFlightData (showLoading st) []) c)
    as (st1 & Hrun & _ & _ & _ & H4 & _ & H6 & H7 & _).
  rewrite (bind_run _ _ _ _ _ Hrun). unfold ret.
  exists (hideLoading st1). split; [reflexivity |].
  destruct (render_empty c) as (chart & _ & Hrender).
  cbn [set_currentFlightData currentFlightData] in H4, H7.
  rewrite Hrender in H7. injection H7 as E1 E2 E3 E4 E5 E6.
  unfold exportData. hidden st1. rewrite H4. cbn [length Nat.eqb].
  change (statCards (hideLoading st1)) with (statCards st1).
  change (routeChart (hideLoading st1)) with (routeChart st1).
  change (airlineChart (hideLoading st1)) with (airlineChart st1).
  change (flightTable (hideLoading st1)) with (flightTable st1).
  change (topRoutes (hideLoading st1)) with (topRoutes st1).
  cbn [log effects]. hidden st1. rewrite H6.
  repeat split; assumption.
Qed.

End LoadingMore.


(** ** The loads on concrete dashboards *)

(** Three records from Boston to Seattle drawn from [rnd_cycle]. *)
Lemma generateSampleData_badges_witness :
  (forall k, (0 <= rnd_cycle k)%Q /\ (rnd_cycle k < 1)%Q)
  /\ exists flights c',
       generateSampleData rnd_cycle "2026-11-01" 3 "BOS" "SEA" 0%nat = (Some flights, c')
       /\ Forall (fun f =>
            row_badge (table_row f) ∈ ["badge-success"; "badge-warning"; "badge-info"]
            /\ row_badge (table_row f) <> "badge-secondary"
            /\ row_status (table_row f) ∈ statuses) flights.
Proof.
  assert (H : forall k, (0 <= rnd_cycle k)%Q /\ (rnd_cycle k < 1)%Q).
  { intros k. unfold rnd_cycle, Qle, Qlt. simpl. lia. }
  split; [exact H |].
  apply (generateSampleData_badges rnd_cycle "2026-11-01" H 3 "BOS" "SEA" 0%nat).
Defined.

(** A search typed in lower case, with the limit at 100, against an
    endpoint that cannot be reached. *)
Lemma loadFilteredData_fallback_as_typed_witness :
  (forall k, (0 <= rnd_cycle k)%Q /\ (rnd_cycle k < 1)%Q)
  /\ parseInt (input_dataLimit (set_inputs initialDashboard "jfk" "lax" "100")) = Some 100
  /\ (forall a, net_down (searchParams "jfk" "lax") <> FetchResponse true (BodyData a))
  /\ prop (searchParams "jfk" "lax") "origin" = JStr "JFK"
  /\ prop (searchParams "jfk" "lax") "destination" = JStr "LAX"
  /\ exists st' c',
       loadFilteredData rnd_cycle "2026-11-01" offset_label net_down
         (set_inputs initialDashboard "jfk" "lax" "100") 0%nat = (Some st', c')
       /\ Z.of_nat (length (currentFlightData st')) = 100
       /\ Forall (fun f => prop f "origin" = JStr "jfk" /\ prop f "destination" = JStr "lax")
                 (currentFlightData st').
Proof.
  assert (H : forall k, (0 <= rnd_cycle k)%Q /\ (rnd_cycle k < 1)%Q).
  { intros k. unfold rnd_cycle, Qle, Qlt. simpl. lia. }
  split; [exact H |]. split; [reflexivity |]. split; [intros a; discriminate |].
  apply (loadFilteredData_fallback_as_typed rnd_cycle "2026-11-01" offset_label H
           net_down (set_inputs initialDashboard "jfk" "lax" "100") 0%nat 100);
    [reflexivity | lia | discriminate | discriminate | intros a; discriminate].
Defined.


(** The page load against an endpoint that cannot be reached. *)
Lemma pageLoad_collection_not_empty_witness :
  (forall k, (0 <= rnd_cycle k)%Q /\ (rnd_cycle k < 1)%Q)
  /\ exists st' c',
       pageLoad rnd_cycle "2026-11-01" offset_label net_down initialDashboard 0%nat
       = (Some st', c')
       /\ currentFlightData st' <> []
       /\ ((exists f fs, net_down (initial_request "2026-11-01")
                         = FetchResponse true (BodyData (Some (f :: fs)))
                         /\ currentFlightData st' = f :: fs)
           \/ (length (currentFlightData st') = 50%nat
               /\ Forall (generated "" "" "2026-11-01") (currentFlightData st')))
       /\ stat_totalFlights (statCards st') = Z.of_nat (length (currentFlightData st'))
       /\ effects (exportData st')
          = effects st' ++ [Download "airline_data.csv" (convertToCSV (currentFlightData st'))].
Proof.
  assert (H : forall k, (0 <= rnd_cycle k)%Q /\ (rnd_cycle k < 1)%Q).
  { intros k. unfold rnd_cycle, Qle, Qlt. simpl. lia. }
  split; [exact H |].
  apply (pageLoad_collection_not_empty rnd_cycle "2026-11-01" offset_label H
           net_down initialDashboard 0%nat).
Defined.

(** Clearing the filters of a search from JFK to LAX with the limit at 100. *)
Lemma clearFilters_reset_witness :
  (forall k, (0 <= rnd_cycle k)%Q /\ (rnd_cycle k < 1)%Q)
  /\ exists st',
       clearFilters rnd_cycle "2026-11-01" offset_label
         (set_inputs initialDashboard "JFK" "LAX" "100") 0%nat = (Some st', (0 + 581)%nat)
       /\ input_fromAirport st' = "" /\ input_toAirport st' = ""
       /\ input_dataLimit st' = "50"
       /\ length (currentFlightData st') = 50%nat
       /\ Forall (fun f => prop f "origin" <> prop f "destination") (currentFlightData st')
       /\ stat_totalFlights (statCards st') = 50
       /\ loadingOverlay st' = loadingOverlay (set_inputs initialDashboard "JFK" "LAX" "100")
       /\ effects st' = effects (set_inputs initialDashboard "JFK" "LAX" "100").
Proof.
  assert (H : forall k, (0 <= rnd_cycle k)%Q /\ (rnd_cycle k < 1)%Q).
  { intros k. unfold rnd_cycle, Qle, Qlt. simpl. lia. }
  split; [exact H |].
  apply (clearFilters_reset rnd_cycle "2026-11-01" offset_label H
           (set_inputs initialDashboard "JFK" "LAX" "100") 0%nat).
Defined.

(** A search against an endpoint whose 2xx answer holds no [flights]. *)
Lemma loadFilteredData_empty_answer_witness :
  net_no_flights (searchParams (input_fromAirport initialDashboard)
                               (input_toAirport initialDashboard))
  = FetchResponse true (BodyData None)
  /\ exists st',
       loadFilteredData rnd_cycle "2026-11-01" offset_label net_no_flights
         initialDashboard 0%nat = (Some st', (0 + 31)%nat)
       /\ currentFlightData st' = []
       /\ statCards st' = dashboardStats
       /\ routeChart st' = sample_route_chart
       /\ airlineChart st' = sample_airline_chart
       /\ flightTable st' = NoData
       /\ topRoutes st' = placeholder_routes
       /\ effects (exportData st')
          = effects initialDashboard
            ++ [Alert "No data to export. Please load some flight data first."].
Proof.
  split; [reflexivity |].
  apply (loadFilteredData_empty_answer rnd_cycle "2026-11-01" offset_label
           net_no_flights initialDashboard 0%nat None); [reflexivity | left; reflexivity].
Defined.


(** ** The shape of a ranking *)

Lemma sum_Z_app (l k : list Z) : sum_Z (l ++ k) = sum_Z l + sum_Z k.
Proof. unfold sum_Z. induction l as [| x l IH]; cbn; [reflexivity | rewrite IH; lia]. Qed.

Lemma sum_Z_perm (l k : list Z) : l ≡ₚ k -> sum_Z l = sum_Z k.
Proof.
  unfold sum_Z. induction 1 as [| x l k _ IH | x y l | l k m _ IH1 _ IH2]; cbn;
    [reflexivity | rewrite IH; reflexivity | lia | congruence].
Qed.

Lemma sum_Z_nonneg (l : list Z) : Forall (fun x => 0 <= x) l -> 0 <= sum_Z l.
Proof. unfold sum_Z. induction 1 as [| x l Hx _ IH]; cbn; lia. Qed.

Lemma sum_Z_lower (l : list Z) :
  Forall (fun x => 1 <= x) l -> Z.of_nat (length l) <= sum_Z l.
Proof. unfold sum_Z. induction 1 as [| x l Hx _ IH]; cbn [length foldr]; lia. Qed.

Lemma dict_set_sum (d : Dict Z) (k : string) (v : Z) :
  sum_Z (dict_set d k v).*2 = sum_Z d.*2 - default 0 (dict_get d k) + v.
Proof.
  unfold sum_Z. induction d as [| [k' v'] d IH]; cbn; [lia |].
  destruct (String.eqb k' k); cbn; [lia | rewrite IH; lia].
Qed.

Lemma count_by_total (field : string) (flights : list JsObj) :
  sum_Z (count_by field flights).*2 = Z.of_nat (length flights).
Proof.
  unfold count_by. induction flights as [| f l IH] using rev_ind; [reflexivity |].
  rewrite foldl_snoc, length_app. unfold count_step at 1.
  rewrite dict_set_sum, num_or_zero, IH. cbn [length]. lia.
Qed.

Lemma occurrences_range (k : string) (l : list string) :
  k ∈ l -> 1 <= occurrences k l <= Z.of_nat (length l).
Proof.
  intros Hin. unfold occurrences.
  split; [| pose proof (length_filter (fun x => x = k) l); lia].
  assert (Hk : k ∈ filter (fun x => x = k) l)
    by (apply list_elem_of_filter; split; [reflexivity | exact Hin]).
  destruct (filter (fun x => x = k) l); [inversion Hk | cbn; lia].
Qed.

Section RankingShape.
Context {V : Type}.
Variable cnt : V -> Z.
Variable d : Dict V.
Variable n : nat.
Variable sorted : Dict V.
Hypothesis sorted_def : sorted = js_sort (fun a b => cnt b.2 - cnt a.2) (entries d).
Hypothesis d_NoDup : NoDup d.*1.

Lemma sorted_perm : sorted ≡ₚ d.
Proof. rewrite sorted_def, js_sort_perm. apply entries_perm. Qed.

Lemma ranking_shape :
  length (take n sorted) = Nat.min n (length d)
  /\ NoDup (take n sorted).*1
  /\ (forall e, e ∈ take n sorted -> e ∈ d)
  /\ ((length d <= n)%nat -> forall e, e ∈ d -> e ∈ take n sorted).
Proof.
  pose proof sorted_perm as Hp.
  split; [rewrite length_take, Hp; reflexivity |].
  split.
  { rewrite fmap_take. eapply sublist_NoDup; [| apply sublist_take].
    rewrite Hp. exact d_NoDup. }
  split.
  { intros e He. rewrite <- Hp. eapply subseteq_take, He. }
  intros Hle e He. rewrite take_ge by (rewrite Hp; exact Hle).
  rewrite Hp. exact He.
Qed.

(** An entry left out of the ranking counts no more than any entry of it. *)
Lemma ranking_complete (e e' : string * V) :
  e ∈ d -> e ∉ take n sorted -> e' ∈ take n sorted -> cnt e.2 <= cnt e'.2.
Proof.
  intros He Hout Hin.
  assert (Hsorted : StronglySorted
            (outranks (fun e => cnt e.2) (fun e : string * V => e.1) (entries d)) sorted).
  { rewrite sorted_def. apply js_sort_sorted. intros x y. reflexivity. }
  rewrite <- sorted_perm, <- (take_drop n sorted) in He.
  apply elem_of_app in He as [He | He]; [contradiction |].
  rewrite <- (take_drop n sorted) in Hsorted.
  destruct (StronglySorted_app_1_elem_of _ _ _ _ _ Hsorted Hin He) as [Hw | [Hw _]];
    cbn in Hw; lia.
Qed.

(** The counts of a ranking add up to the counts of the dictionary exactly
    when no entry is left out. *)
Lemma ranking_sum :
  (forall e, e ∈ d -> 1 <= cnt e.2) ->
  sum_Z ((fun e => cnt e.2) <$> take n sorted) <= sum_Z ((fun e => cnt e.2) <$> d)
  /\ (sum_Z ((fun e => cnt e.2) <$> take n sorted) = sum_Z ((fun e => cnt e.2) <$> d)
      <-> (length d <= n)%nat).
Proof.
  intros Hpos. pose proof sorted_perm as Hp.
  assert (E : sum_Z ((fun e => cnt e.2) <$> d)
              = sum_Z ((fun e => cnt e.2) <$> take n sorted)
                + sum_Z ((fun e => cnt e.2) <$> drop n sorted)).
  { rewrite <- sum_Z_app, <- fmap_app, take_drop. apply sum_Z_perm.
    rewrite Hp. reflexivity. }
  assert (Hdrop : Z.of_nat (length d - n)
                  <= sum_Z ((fun e => cnt e.2) <$> drop n sorted)).
  { rewrite <- (Permutation_length Hp), <- length_drop, <- (length_fmap (fun e => cnt e.2)).
    apply sum_Z_lower, Forall_fmap, Forall_forall. intros e He. cbn.
    apply Hpos. rewrite <- Hp. eapply subseteq_drop, He. }
  split; [lia |]. split; [lia |].
  intros Hle. rewrite E, (drop_ge sorted n) by (rewrite Hp; exact Hle). cbn. lia.
Qed.

End RankingShape.

(** The dictionary a loop over the flights builds has one entry for each
    different key. *)
Lemma built_length {V} (step : Dict V -> JsObj -> Dict V) (field : string)
    (flights : list JsObj) :
  (forall d x, (step d x).*1
               = if decide (key_of field x ∈ d.*1) then d.*1 else d.*1 ++ [key_of field x]) ->
  length (foldl step [] flights) = length (remove_dups (key_of field <$> flights)).
Proof.
  intros Hstep.
  destruct (built_keys step (key_of field) Hstep flights) as (Hnd & Hin & _).
  rewrite <- (length_fmap fst). apply Permutation_length.
  apply NoDup_Permutation; [exact Hnd | apply NoDup_remove_dups |].
  intros k. rewrite Hin, elem_of_remove_dups. reflexivity.
Qed.

(** The ranking of a chart: its length, its keys and its counts. *)
Lemma top_counts_shape (field : string) (n : nat) (flights : list JsObj) :
  length (top_counts n (count_by field flights))
  = Nat.min n (length (remove_dups (key_of field <$> flights)))
  /\ NoDup (top_counts n (count_by field flights)).*1
  /\ (forall k c, (k, c) ∈ top_counts n (count_by field flights) ->
        k ∈ key_of field <$> flights
        /\ c = occurrences k (key_of field <$> flights)
        /\ 1 <= c <= Z.of_nat (length flights))
  /\ (forall k k' c', k ∈ key_of field <$> flights ->
        k ∉ (top_counts n (count_by field flights)).*1 ->
        (k', c') ∈ top_counts n (count_by field flights) ->
        occurrences k (key_of field <$> flights) <= c')
  /\ sum_Z (top_counts n (count_by field flights)).*2 <= Z.of_nat (length flights)
  /\ (sum_Z (top_counts n (count_by field flights)).*2 = Z.of_nat (length flights)
      <-> (length (remove_dups (key_of field <$> flights)) <= n)%nat)
  /\ ((length (remove_dups (key_of field <$> flights)) <= n)%nat ->
      forall k, k ∈ key_of field <$> flights ->
                k ∈ (top_counts n (count_by field flights)).*1).
Proof.
  destruct (built_keys (count_step field) (key_of field) (count_step_keys field) flights)
    as (Hnd & Hkeys & _).
  pose proof (built_length (count_step field) field flights (count_step_keys field)) as Hlen.
  fold (count_by field flights) in Hnd, Hkeys, Hlen.
  destruct (ranking_shape (fun z => z) (count_by field flights) n _ eq_refl Hnd)
    as (H1 & H2 & H3 & H4).
  assert (Hval : forall k c, (k, c) ∈ count_by field flights ->
            k ∈ key_of field <$> flights /\ c = occurrences k (key_of field <$> flights)).
  { intros k c Hin. pose proof (dict_get_elem _ _ _ Hnd Hin) as E.
    rewrite count_by_value in E.
    destruct (decide (k ∈ key_of field <$> flights)) as [Hk | _]; [| discriminate].
    split; [exact Hk | congruence]. }
  assert (Hmem : forall k, k ∈ key_of field <$> flights ->
            (k, occurrences k (key_of field <$> flights)) ∈ count_by field flights).
  { intros k Hk. apply Hkeys in Hk. apply list_elem_of_fmap in Hk as ([k0 c0] & -> & Hin).
    destruct (Hval _ _ Hin) as [_ ->]. exact Hin. }
  assert (Hpos : forall e, e ∈ count_by field flights -> 1 <= e.2).
  { intros [k c] Hin. destruct (Hval _ _ Hin) as [Hk ->]. apply occurrences_range, Hk. }
  destruct (ranking_sum (fun z => z) (count_by field flights) n _ eq_refl Hpos) as [S1 S2].
  change (fun e : string * Z => e.2) with (@snd string Z) in S1, S2.
  rewrite count_by_total in S1, S2. rewrite Hlen in S2, H4.
  unfold top_counts. rewrite H1, Hlen.
  split; [reflexivity |]. split; [exact H2 |]. split.
  { intros k c Hin. destruct (Hval _ _ (H3 _ Hin)) as [Hk ->].
    split; [exact Hk |]. split; [reflexivity |].
    pose proof (occurrences_range _ _ Hk) as Hr. rewrite length_fmap in Hr. exact Hr. }
  split.
  { intros k k' c' Hk Hout Hin.
    apply (ranking_complete (fun z => z) (count_by field flights) n _ eq_refl
             (k, occurrences k (key_of field <$> flights)) (k', c')).
    - apply Hmem, Hk.
    - intros Hin'. apply Hout. apply list_elem_of_fmap. eexists. split; [| exact Hin'].
      reflexivity.
    - exact Hin. }
  split; [exact S1 |]. split; [exact S2 |].
  intros Hle k Hk. apply list_elem_of_fmap. eexists. split; [| apply (H4 Hle), Hmem, Hk].
  reflexivity.
Qed.

(** What [routeStats] holds for a route: the flights on the route, in their
    order, and the sum [+=] built from their prices. *)
Lemma route_stats_flights (flights : list JsObj) (k : string) (st : RouteStat) :
  dict_get (route_stats flights) k = Some st ->
  rs_flights st = filter (fun f => key_of "route" f = k) flights
  /\ rs_totalPrice st
     = foldl js_add (JNum 0) ((fun f => prop f "price") <$> rs_flights st).
Proof.
  unfold route_stats.
  assert (H : forall k,
    match dict_get (foldl stats_step [] flights) k with
    | Some st =>
        rs_flights st = filter (fun f => key_of "route" f = k) flights
        /\ rs_totalPrice st
           = foldl js_add (JNum 0) ((fun f => prop f "price") <$> rs_flights st)
    | None => True
    end).
  { clear k st. induction flights as [| f l IH] using rev_ind; intros k; [exact I |].
    rewrite foldl_snoc. unfold stats_step at 1.
    set (d := foldl stats_step [] l) in *. set (kf := key_of "route" f).
    rewrite filter_app, filter_cons, filter_nil. fold kf.
    pose proof (IH kf) as Hkf. pose proof (route_stats_value l kf) as Hcount.
    unfold route_stats in Hcount. fold d in Hcount.
    destruct (dict_get d kf) as [s0 |] eqn:E.
    + rewrite E. destruct Hkf as [Hfl Htot].
      destruct (decide (k = kf)) as [-> | Hne].
      * rewrite dict_get_set_eq. cbn [rs_flights rs_totalPrice].
        rewrite decide_True by reflexivity. rewrite Hfl at 1.
        split; [reflexivity |]. rewrite fmap_app, foldl_app, <- Htot. reflexivity.
      * rewrite dict_get_set_ne by exact Hne.
        rewrite (decide_False (P := kf = k)) by congruence. rewrite app_nil_r.
        apply IH.
    + rewrite dict_get_set_eq.
      destruct (decide (k = kf)) as [-> | Hne].
      * rewrite dict_get_set_eq. cbn [rs_flights rs_totalPrice app].
        rewrite decide_True by reflexivity.
        assert (Hnone : filter (fun f0 => key_of "route" f0 = kf) l = []).
        { apply dict_get_None in E.
          destruct (built_keys stats_step (key_of "route") stats_step_keys l) as (_ & Hin & _).
          fold d in Hin. destruct (filter _ l) as [| g gs] eqn:Ef; [reflexivity |].
          assert (Hg : g ∈ filter (fun f0 => key_of "route" f0 = kf) l)
            by (rewrite Ef; left).
          apply list_elem_of_filter in Hg as [Hg1 Hg2]. exfalso. apply E, Hin.
          apply list_elem_of_fmap. exists g. split; [symmetry; exact Hg1 | exact Hg2]. }
        rewrite Hnone. split; reflexivity.
      * rewrite !dict_get_set_ne by exact Hne.
        rewrite (decide_False (P := kf = k)) by congruence. rewrite app_nil_r.
        apply IH. }
  intros E. specialize (H k). rewrite E in H. exact H.
Qed.

Lemma foldl_js_add_numbers (fl : list JsObj) (a : Z) :
  Forall (fun f => exists p, prop f "price" = JNum p) fl ->
  foldl js_add (JNum a) ((fun f => prop f "price") <$> fl)
  = JNum (a + sum_Z (price_of <$> fl)).
Proof.
  intros H. revert a. induction H as [| f fl [p Hp] _ IH]; intros a.
  - cbn. f_equal. lia.
  - cbn [fmap list_fmap foldl]. rewrite Hp. cbn [js_add]. rewrite IH.
    unfold sum_Z, price_of at 2. cbn [fmap list_fmap foldr]. rewrite Hp. f_equal.
    unfold sum_Z. lia.
Qed.

Section Charts.
Variable rnd : nat -> Q.
Variable dayLabel : nat -> string.

Lemma chart_bars (field : string) (n : nat) (flights : list JsObj) :
  length (fst <$> top_counts n (count_by field flights))
  = Nat.min n (length (remove_dups (key_of field <$> flights)))
  /\ length (snd <$> top_counts n (count_by field flights))
     = length (fst <$> top_counts n (count_by field flights))
  /\ NoDup (fst <$> top_counts n (count_by field flights))
  /\ Forall (fun v => 1 <= v <= Z.of_nat (length flights))
            (snd <$> top_counts n (count_by field flights)).
Proof.
  destruct (top_counts_shape field n flights) as (H1 & H2 & H3 & _).
  rewrite !length_fmap. split; [exact H1 |]. split; [reflexivity |].
  split; [exact H2 |].
  apply Forall_fmap, Forall_forall. intros [k v] Hin. apply (H3 _ _ Hin).
Qed.


End Charts.




(** ** Reading a CSV text back *)

Lemma count_char_app (c : ascii) (a b : string) :
  count_char c (a +:+ b) = (count_char c a + count_char c b)%nat.
Proof.
  induction a as [| x a IH]; [reflexivity |].
  change (String x a +:+ b) with (String x (a +:+ b)). cbn [count_char].
  rewrite IH. lia.
Qed.

Lemma split_on_length (c : ascii) (s : string) :
  length (split_on c s) = S (count_char c s).
Proof.
  induction s as [| a s IH]; [reflexivity |]. cbn [split_on count_char].
  destruct (Ascii.eqb a c); cbn [length]; [rewrite IH; reflexivity |].
  destruct (split_on c s); [discriminate | exact IH].
Qed.

Lemma split_on_free (c : ascii) (x : string) : count_char c x = 0%nat -> split_on c x = [x].
Proof.
  induction x as [| a x IH]; [reflexivity |]. cbn [split_on count_char].
  destruct (Ascii.eqb a c); [discriminate |]. cbn. intros H. rewrite (IH H). reflexivity.
Qed.

Lemma split_on_app (c : ascii) (x r : string) :
  count_char c x = 0%nat -> split_on c (x +:+ String c r) = x :: split_on c r.
Proof.
  induction x as [| a x IH].
  - intros _. change ("" +:+ String c r) with (String c r). cbn [split_on].
    rewrite Ascii.eqb_refl. reflexivity.
  - change (String a x +:+ String c r) with (String a (x +:+ String c r)).
    cbn [split_on count_char].
    destruct (Ascii.eqb a c); [discriminate |]. cbn. intros H. rewrite (IH H). reflexivity.
Qed.

Lemma split_on_join (c : ascii) (l : list string) :
  l <> [] -> Forall (fun x => count_char c x = 0%nat) l ->
  split_on c (join (String c EmptyString) l) = l.
Proof.
  intros Hne H. induction H as [| x l Hx Hl IH]; [congruence |].
  destruct l as [| y l]; [apply split_on_free, Hx |].
  change (join (String c EmptyString) (x :: y :: l))
    with (x +:+ String c (join (String c EmptyString) (y :: l))).
  rewrite split_on_app by exact Hx. rewrite IH by discriminate. reflexivity.
Qed.

Lemma count_char_join (c : ascii) (sep : string) (l : list string) :
  count_char c (join sep l)
  = (sum_list (count_char c <$> l) + (length l - 1) * count_char c sep)%nat.
Proof.
  induction l as [| x l IH]; [reflexivity |].
  destruct l as [| y l]; [cbn; lia |].
  change (join sep (x :: y :: l)) with (x +:+ sep +:+ join sep (y :: l)).
  rewrite !count_char_app, IH. cbn [length]. rewrite (fmap_cons _ x). cbn [sum_list_with].
  replace (S (length l) - 1)%nat with (length l) by lia.
  replace (S (S (length l)) - 1)%nat with (S (length l)) by lia.
  rewrite Nat.mul_succ_l. change (Datatypes.id (count_char c x)) with (count_char c x). lia.
Qed.

Lemma sum_list_cons (x : nat) (l : list nat) : sum_list (x :: l) = (x + sum_list l)%nat.
Proof. reflexivity. Qed.

Lemma csv_row_fields (f : JsObj) : csv_row f = join "," (field_texts f).
Proof. reflexivity. Qed.

(** X21. When no cell text of the data holds a comma or a line feed,
    splitting the text of [convertToCSV] at the line feeds and each line at
    the commas gives back the header cells followed by the seven cell texts
    of each record, in the order of the data. *)
Theorem convertToCSV_parse (data : list JsObj) :
  Forall (fun f => Forall (fun x => count_char ","%char x = 0%nat
                                    /\ count_char LF_char x = 0%nat) (field_texts f)) data ->
  parse_csv (convertToCSV data) = csv_headers :: (field_texts <$> data).
Proof.
  intros H. unfold parse_csv, convertToCSV.
  change LF with (String LF_char EmptyString).
  rewrite split_on_join; [| discriminate |].
  - cbn [fmap list_fmap]. f_equal.
    rewrite <- list_fmap_compose. apply Forall_fmap_ext_1.
    eapply Forall_impl; [exact H |]. intros f Hf. unfold compose.
    rewrite csv_row_fields.
    change "," with (String ","%char EmptyString).
    apply split_on_join; [discriminate |].
    eapply Forall_impl; [exact Hf |]. intros x [Hx _]. exact Hx.
  - constructor; [reflexivity |].
    apply Forall_fmap. eapply Forall_impl; [exact H |]. intros f Hf. unfold compose.
    rewrite csv_row_fields, count_char_join.
    change (count_char LF_char ",") with 0%nat. rewrite Nat.mul_0_r, Nat.add_0_r.
    induction Hf as [| x l [_ Hx] _ IH]; [reflexivity |].
    cbn [fmap list_fmap sum_list sum_list_with]. rewrite Hx. exact IH.
Qed.

(** X22. [convertToCSV] quotes and escapes nothing: a line of a record holds
    six commas more than its cell texts hold, so it splits into seven cells
    and one more for each comma in a cell text, and the text holds one line
    feed for each record and one more for each line feed in a cell text. *)
Theorem convertToCSV_separators (data : list JsObj) (f : JsObj) :
  count_char ","%char (csv_row f)
  = (6 + sum_list (count_char ","%char <$> field_texts f))%nat
  /\ length (split_on ","%char (csv_row f))
     = (7 + sum_list (count_char ","%char <$> field_texts f))%nat
  /\ count_char LF_char (convertToCSV data)
     = (length data + sum_list (count_char LF_char <$> (data ≫= field_texts)))%nat
  /\ length (parse_csv (convertToCSV data))
     = (1 + length data + sum_list (count_char LF_char <$> (data ≫= field_texts)))%nat.
Proof.
  assert (Hrow : forall c g, count_char c (csv_row g)
            = (sum_list (count_char c <$> field_texts g) + 6 * count_char c ",")%nat).
  { intros c g. rewrite csv_row_fields, count_char_join. reflexivity. }
  assert (Hcommas : count_char ","%char (csv_row f)
                    = (6 + sum_list (count_char ","%char <$> field_texts f))%nat).
  { rewrite Hrow. change (count_char ","%char ",") with 1%nat. lia. }
  assert (Hlines : count_char LF_char (convertToCSV data)
            = (length data + sum_list (count_char LF_char <$> (data ≫= field_texts)))%nat).
  { assert (E : sum_list (count_char LF_char <$> (csv_row <$> data))
                = sum_list (count_char LF_char <$> (data ≫= field_texts))).
    { induction data as [| g l IH]; [reflexivity |].
      rewrite bind_cons, !fmap_cons, fmap_app, sum_list_cons, sum_list_with_app.
      rewrite <- IH, Hrow. change (count_char LF_char ",") with 0%nat. lia. }
    unfold convertToCSV. rewrite count_char_join, fmap_cons, sum_list_cons, E.
    change (count_char LF_char (join "," csv_headers)) with 0%nat.
    change (count_char LF_char LF) with 1%nat.
    cbn [length]. rewrite length_fmap. lia. }
  split; [exact Hcommas |]. split; [rewrite split_on_length, Hcommas; reflexivity |].
  split; [exact Hlines |].
  unfold parse_csv. rewrite length_fmap, split_on_length, Hlines. reflexivity.
Qed.

(** ** Rankings and CSV texts on concrete data *)




(** The text of the record of the CSV example, read back. *)
Lemma convertToCSV_parse_witness :
  Forall (fun f => Forall (fun x => count_char ","%char x = 0%nat
                                    /\ count_char LF_char x = 0%nat) (field_texts f))
         [csv_example_snake]
  /\ parse_csv (convertToCSV [csv_example_snake])
     = csv_headers :: (field_texts <$> [csv_example_snake]).
Proof.
  assert (H : Forall (fun f => Forall (fun x => count_char ","%char x = 0%nat
                                    /\ count_char LF_char x = 0%nat) (field_texts f))
                [csv_example_snake]).
  { constructor; [| constructor]. vm_compute. repeat constructor. }
  split; [exact H |].
  apply (convertToCSV_parse [csv_example_snake] H).
Defined.


Section LimitNotANumber.
Variable rnd : nat -> Q.
Variable todayISO : string.
Variable dayLabel : nat -> string.

(** X23. When the limit does not parse as a number, [loadFilteredData]
    leaves the collection empty whatever the endpoint does: a list that
    arrives is cut to nothing, and the fallback generates no record. The
    dashboard shows the empty state and the overlay is hidden. *)
Theorem loadFilteredData_limit_not_a_number
    (net : JsObj -> FetchResult) (st : Dashboard) (c : nat) :
  parseInt (input_dataLimit st) = None ->
  exists st',
    loadFilteredData rnd todayISO dayLabel net st c = (Some st', (c + 31)%nat)
    /\ currentFlightData st' = []
    /\ statCards st' = dashboardStats
    /\ routeChart st' = sample_route_chart
    /\ airlineChart st' = sample_airline_chart
    /\ flightTable st' = NoData
    /\ topRoutes st' = placeholder_routes
    /\ loadingOverlay st' = false.
Proof.
  intros Hlimit.
  assert (Hshow : forall s, currentFlightData s = [] ->
            exists st', (st1 <- updateDashboard rnd dayLabel s ;; ret (hideLoading st1)) c
                        = (Some st', (c + 31)%nat)
                        /\ currentFlightData st' = []
                        /\ statCards st' = dashboardStats
                        /\ routeChart st' = sample_route_chart
                        /\ airlineChart st' = sample_airline_chart
                        /\ flightTable st' = NoData
                        /\ topRoutes st' = placeholder_routes
                        /\ loadingOverlay st' = false).
  { intros s Hs.
    destruct (updateDashboard_run rnd dayLabel s c)
      as (st1 & Hrun & _ & _ & _ & H4 & _ & _ & H7 & _).
    rewrite (bind_run _ _ _ _ _ Hrun). unfold ret.
    exists (hideLoading st1). split; [reflexivity |].
    destruct (render_empty rnd dayLabel c) as (chart & _ & Hrender).
    rewrite Hs in H4, H7. rewrite Hrender in H7. injection H7 as E1 E2 E3 E4 E5 E6.
    hidden st1.
    change (statCards (hideLoading st1)) with (statCards st1).
    change (routeChart (hideLoading st1)) with (routeChart st1).
    change (airlineChart (hideLoading st1)) with (airlineChart st1).
    change (flightTable (hideLoading st1)) with (flightTable st1).
    change (topRoutes (hideLoading st1)) with (topRoutes st1).
    repeat split; assumption. }
  unfold loadFilteredData, try_catch. rewrite Hlimit.
  cbn [generateSampleDataN].
  destruct (net _) as [| [|] [| [a |]]]; unfold throw; rewrite ?bind_ret.
  all: match goal with
       | |- context [updateDashboard rnd dayLabel ?s] =>
           destruct (Hshow s eq_refl) as (st' & Hrun & Hrest)
       end.
  all: exists st'; rewrite Hrun; split; [reflexivity | exact Hrest].
Qed.

End LimitNotANumber.

(** A limit that is no number, against an endpoint that cannot be reached. *)
Lemma loadFilteredData_limit_not_a_number_witness :
  parseInt (input_dataLimit (set_inputs initialDashboard "JFK" "LAX" "all")) = None
  /\ exists st',
       loadFilteredData rnd_cycle "2026-11-01" offset_label net_down
         (set_inputs initialDashboard "JFK" "LAX" "all") 0%nat = (Some st', (0 + 31)%nat)
       /\ currentFlightData st' = []
       /\ statCards st' = dashboardStats
       /\ routeChart st' = sample_route_chart
       /\ airlineChart st' = sample_airline_chart
       /\ flightTable st' = NoData
       /\ topRoutes st' = placeholder_routes
       /\ loadingOverlay st' = false.
Proof.
  split; [reflexivity |].
  apply (loadFilteredData_limit_not_a_number rnd_cycle "2026-11-01" offset_label
           net_down (set_inputs initialDashboard "JFK" "LAX" "all") 0%nat).
  reflexivity.
Defined.
